(** * towncrier [check]: a shallow embedding of [src/towncrier/check.py]

    The command looks for news fragments among the files changed on a
    branch.  The embedding follows the Python source line by line: the
    two [git] invocations, the decoding of their output, the path
    normalisation of [os.path] (POSIX flavour) and the set intersection
    that decides the exit status. *)

From Stdlib Require Import String Ascii ZArith Lia DecimalString.
From stdpp Require Import base list strings gmap.

Local Open Scope string_scope.
Local Open Scope list_scope.

(** ** Python [str] methods used by the command

    A [str] is modelled as a [string] whose characters are the code
    points below 256. *)
Module Str.

(** [s.startswith(prefix)] *)
Fixpoint startswith (prefix s : string) : bool :=
  match prefix with
  | EmptyString => true
  | String a prefix' =>
      match s with
      | EmptyString => false
      | String b s' => Ascii.eqb a b && startswith prefix' s'
      end
  end.

(** [s.endswith(c)] for one character. *)

Fixpoint endswith_char (c : ascii) (s : string) : bool :=
  match s with
  | EmptyString => false
  | String d EmptyString => Ascii.eqb c d
  | String _ s' => endswith_char c s'
  end.

(** [str.isspace] on one code point below 256: TAB, LF, VT, FF, CR, the
    four separators FS, GS, RS, US, the space, NEL and the no-break
    space. *)
Definition isspace (c : ascii) : bool :=
  let n := nat_of_ascii c in
  (((9 <=? n) && (n <=? 13)) || ((28 <=? n) && (n <=? 32))
   || (n =? 133) || (n =? 160))%nat.

Fixpoint lstrip (s : string) : string :=
  match s with
  | EmptyString => EmptyString
  | String c s' => if isspace c then lstrip s' else s
  end.

Fixpoint rstrip (s : string) : string :=
  match s with
  | EmptyString => EmptyString
  | String c s' =>
      match rstrip s' with
      | EmptyString => if isspace c then EmptyString else String c EmptyString
      | r => String c r
      end
  end.

(** [s.strip()] *)
Definition strip (s : string) : string := rstrip (lstrip s).

(** Line boundaries of [str.splitlines] below 256: LF, VT, FF, CR, FS,
    GS, RS and NEL; CR LF counts as one boundary. *)
Definition islinebreak (c : ascii) : bool :=
  let n := nat_of_ascii c in
  (((10 <=? n) && (n <=? 13)) || ((28 <=? n) && (n <=? 30)) || (n =? 133))%nat.

Fixpoint splitlines_from (cur : string) (s : string) : list string :=
  match s with
  | EmptyString => match cur with EmptyString => [] | _ => [cur] end
  | String c s' =>
      if islinebreak c then
        match s' with
        | String d s'' =>
            if ((nat_of_ascii c =? 13) && (nat_of_ascii d =? 10))%nat
            then cur :: splitlines_from EmptyString s''
            else cur :: splitlines_from EmptyString s'
        | EmptyString => [cur]
        end
      else splitlines_from (cur +:+ String c EmptyString) s'
  end.

(** [s.splitlines()] *)
Definition splitlines (s : string) : list string :=
  splitlines_from EmptyString s.

(** [s.split(sep)] for a one-character separator: never empty. *)
Fixpoint split (sep : ascii) (s : string) : list string :=
  match s with
  | EmptyString => [EmptyString]
  | String c s' =>
      if Ascii.eqb c sep then EmptyString :: split sep s'
      else match split sep s' with
           | [] => [String c EmptyString]
           | x :: xs => String c x :: xs
           end
  end.

(** [sep.join(parts)] *)
Fixpoint join (sep : string) (parts : list string) : string :=
  match parts with
  | [] => EmptyString
  | [x] => x
  | x :: xs => x +:+ sep +:+ join sep xs
  end.

(** [str(n)] for a natural number. *)
Definition of_nat (n : nat) : string := NilZero.string_of_uint (Nat.to_uint n).

End Str.

(** ** [os.path] on POSIX ([posixpath]) *)
Module posixpath.

Definition sep : string := "/".

Definition isabs (s : string) : bool := Str.startswith sep s.

(** One step of the loop of [join]: [b] replaces the path when it is
    absolute, and is appended after a separator otherwise. *)
Definition join2 (path b : string) : string :=
  if Str.startswith sep b then b
  else if String.eqb path "" || Str.endswith_char "/" path then path +:+ b
  else path +:+ sep +:+ b.

(** [os.path.join(a, *p)] *)
Definition join (a : string) (p : list string) : string :=
  fold_left join2 p a.

(** POSIX allows one or two initial slashes and treats three or more as
    one: the value of [initial_slashes] in [normpath]. *)
Definition initial_slashes (path : string) : nat :=
  if Str.startswith sep path then
    if Str.startswith "//" path && negb (Str.startswith "///" path)
    then 2 else 1
  else 0.

(** The body of the loop over the components. *)
Definition normpath_step (initial : nat) (new_comps : list string)
    (comp : string) : list string :=
  if String.eqb comp "" || String.eqb comp "." then new_comps
  else if negb (String.eqb comp "..")
          || ((initial =? 0)%nat && bool_decide (new_comps = []))
          || (match last new_comps with
              | Some l => String.eqb l ".."
              | None => false
              end)
  then new_comps ++ [comp]
  else removelast new_comps.

Definition normpath_comps (initial : nat) (comps : list string) : list string :=
  fold_left (normpath_step initial) comps [].

(** [os.path.normpath(path)] *)
Definition normpath (path : string) : string :=
  if String.eqb path "" then "."
  else
    let initial := initial_slashes path in
    let comps := normpath_comps initial (Str.split "/" path) in
    let path' := Str.join sep comps in
    let path' :=
      match initial with
      | 0 => path'
      | 1 => sep +:+ path'
      | _ => sep +:+ sep +:+ path'
      end in
    if String.eqb path' "" then "." else path'.

(** [os.path.abspath(path)], with the working directory [cwd] of the
    process. *)
Definition abspath (cwd path : string) : string :=
  if isabs path then normpath path else normpath (join cwd [path]).

End posixpath.

(** ** Effects of the command

    A run leaves a log of what it did to the outside world and ends
    with a value, with [sys.exit], or with an uncaught exception. *)

Abbreviation bytes := (list Byte.byte).

Inductive exn : Type :=
| CalledProcessError (returncode : Z) (cmd : list string) (output : bytes)
| TypeError (msg : string)
| UnicodeDecodeError (encoding : string) (object : bytes)
| LookupError (msg : string)
| OSError (errno : Z) (strerror : string).

(** What [click.echo] is given; [render] is the text on the console. *)
Inductive message : Type :=
| MsgNoDefaultBranch
| MsgGitFailed
| MsgOutput (output : bytes)
| MsgNoDiffs (comparewith : string)
| MsgLooking
| MsgRule
| MsgItem (n : nat) (path : string)
| MsgSkipped
| MsgNotFound
| MsgFound.

Definition render (m : message) : string :=
  match m with
  | MsgNoDefaultBranch => "Could not detect default branch. Aborting."
  | MsgGitFailed => "git produced output while failing:"
  | MsgOutput output => string_of_list_byte output
  | MsgNoDiffs comparewith =>
      "On " +:+ comparewith +:+ " branch, or no diffs, so no newsfragment required."
  | MsgLooking => "Looking at these files:"
  | MsgRule => "----"
  | MsgItem n path => Str.of_nat n +:+ ". " +:+ path
  | MsgSkipped => "Checks SKIPPED: news file changes detected."
  | MsgNotFound => "No new newsfragments found on this branch."
  | MsgFound => "Found:"
  end.

Inductive warning_category : Type := DeprecationWarning.

Section Effects.

(** The section and fragment-type tables of the configuration are opaque
    to the command: it only passes them on. *)
Context {sections_t types_t : Type}.

Inductive event : Type :=
| EvRun (args : list string) (cwd : string)
| EvWarn (category : warning_category) (msg : string)
| EvEcho (m : message)
| EvFindFragments (base_directory : string) (sections : sections_t)
    (fragment_directory : option string) (types : types_t).

Inductive outcome (A : Type) : Type :=
| Return (a : A)
| SysExit (code : Z)
| Raised (e : exn).
Global Arguments Return {A} a.
Global Arguments SysExit {A} code.
Global Arguments Raised {A} e.

Definition M (A : Type) : Type := list event * outcome A.

Global Instance M_ret : MRet M := λ A a, ([], Return a).

Global Instance M_bind : MBind M := λ A B k m,
  match m with
  | (l, Return a) => let '(l', r) := k a in (l ++ l', r)
  | (l, SysExit code) => (l, SysExit code)
  | (l, Raised e) => (l, Raised e)
  end.

Definition emit (e : event) : M unit := ([e], Return tt).
Definition raise {A} (e : exn) : M A := ([], Raised e).
(** [sys.exit(code)] *)
Definition sys_exit {A} (code : Z) : M A := ([], SysExit code).
(** [click.echo(m)] for a message that is a [str] *)
Definition echo (m : message) : M unit := emit (EvEcho m).

(** [try: m except CalledProcessError as e: handler(e)]; another
    exception, and [SystemExit], pass through. *)
Definition try_CalledProcessError {A} (m : M A)
    (handler : Z → list string → bytes → M A) : M A :=
  match m with
  | (l, Raised (CalledProcessError rc cmd out)) =>
      let '(l', r) := handler rc cmd out in (l ++ l', r)
  | _ => m
  end.

(** [for x in xs: body(x)] *)
Fixpoint for_each {A} (xs : list A) (body : A → M unit) : M unit :=
  match xs with
  | [] => mret tt
  | x :: xs' => body x ;; for_each xs' body
  end.

End Effects.

Arguments event : clear implicits.
Arguments M : clear implicits.

(** ** The outside world of one run *)

(** A Python value that is [None] or a [str]. *)
Inductive py_value : Type :=
| PyNone
| PyStr (s : string).

(** [getattr(obj, name, default)]: the attribute when the object has
    it, whatever its value, and the default only when it has not. *)
Definition getattr (attribute : option py_value) (default : py_value) : py_value :=
  match attribute with
  | Some v => v
  | None => default
  end.

(** The [stderr] argument of [subprocess.check_output]. *)
Inductive stderr_t : Type := STDOUT.

(** What [subprocess.check_output] meets: the command ran and exited
    with status 0, it ran and exited with another status, or it could
    not be started (no such program, no such directory), which raises
    [OSError] or one of its subclasses. *)
Inductive process_result : Type :=
| Completed (output : bytes)
| Failed (returncode : Z) (output : bytes)
| NotStarted (errno : Z) (strerror : string).

(** What [click.echo] finds behind [sys.stdout] when it is given
    bytes: a binary writer, which takes them, or a text stream alone
    (such as [io.StringIO]), whose [write] raises [TypeError] with the
    given text. *)
Inductive bytes_sink : Type :=
| BinaryWriter
| TextOnly (error : string).

Inductive codec_result : Type :=
| Decoded (s : string)
| Undecodable
| UnknownEncoding.

(** [enumerate(xs, start)] *)
Fixpoint enumerate {A} (start : nat) (xs : list A) : list (nat * A) :=
  match xs with
  | [] => []
  | x :: xs' => (start, x) :: enumerate (S start) xs'
  end.

Section Check.

Context {sections_t types_t content_t : Type}.

(** The configuration mapping: the keys the command reads.
    [config_directory] is [None] when the key is absent or holds [None]. *)
Record config_t : Type := {
  config_filename : string;
  config_directory : option string;
  config_package_dir : string;
  config_package : string;
  config_sections : sections_t;
  config_types : types_t;
}.

(** What the run reads from its environment and its collaborators:
    [sys.stdout.encoding] ([None] when [sys.stdout] has no such
    attribute), what [sys.stdout] does with bytes, [os.getcwd()],
    [subprocess.check_output], the codecs
    behind [bytes.decode], and the two functions imported from
    [._settings] and [._builder]. *)
Record world : Type := {
  stdout_encoding : option py_value;
  stdout_bytes : bytes_sink;
  getcwd : string;
  check_output : list string → string → stderr_t → process_result;
  codec : string → bytes → codec_result;
  load_config_from_options : option string → option string → string * config_t;
  find_fragments :
    string → sections_t → option string → types_t → content_t * list string;
}.

Local Abbreviation M := (M sections_t types_t).
Local Abbreviation event := (event sections_t types_t).

(** [b.decode(encoding)] *)
Definition bytes_decode (w : world) (b : bytes) (encoding : py_value) : M string :=
  match encoding with
  | PyNone => raise (TypeError "decode() argument 'encoding' must be str, not None")
  | PyStr e =>
      match codec w e b with
      | Decoded s => mret s
      | Undecodable => raise (UnicodeDecodeError e b)
      | UnknownEncoding => raise (LookupError ("unknown encoding: " +:+ e))
      end
  end.

Definition _run (w : world) (args : list string) (cwd : string) : M bytes :=
  emit (EvRun args cwd);;
  match check_output w args cwd STDOUT with
  | Completed output => mret output
  | Failed returncode output => raise (CalledProcessError returncode args output)
  | NotStarted errno strerror => raise (OSError errno strerror)
  end.

(** [click.echo(output)] for bytes: written through the binary writer of
    [sys.stdout] when there is one, and to the text stream otherwise,
    which refuses them. *)
Definition echo_bytes (w : world) (output : bytes) : M unit :=
  match stdout_bytes w with
  | BinaryWriter => echo (MsgOutput output)
  | TextOnly error => raise (TypeError error)
  end.

Definition _get_remote_branches (w : world) (base_directory : string)
    (encoding : py_value) : M (list string) :=
  raw ← _run w ["git"; "branch"; "-r"] base_directory;
  output ← bytes_decode w raw encoding;
  mret (Str.strip <$> Str.splitlines output).

Definition origin_master_deprecated : string :=
  "Using " +:+ String "034" "origin/master" +:+ String "034" " as default compare branch is deprecated "
  +:+ "and will be removed in a future version.".

Definition _get_default_compare_branch (branches : list string) : M (option string) :=
  if bool_decide ("origin/main" ∈ branches) then mret (Some "origin/main")
  else if bool_decide ("origin/master" ∈ branches) then
    emit (EvWarn DeprecationWarning origin_master_deprecated);;
    mret (Some "origin/master")
  else mret None.

Definition call_find_fragments (w : world) (base_directory : string)
    (secs : sections_t) (fragment_directory : option string) (tys : types_t)
  : M (content_t * list string) :=
  emit (EvFindFragments base_directory secs fragment_directory tys);;
  mret (find_fragments w base_directory secs fragment_directory tys).

(** The command.  A Python set is iterated in an order the language
    leaves open; [elements] stands for that order in the two listings. *)
Definition __main (w : world) (comparewith directory config : option string)
  : M unit :=
  let '(base_directory, config) := load_config_from_options w directory config in
  let encoding := getattr (stdout_encoding w) (PyStr "utf8") in
  comparewith ←
    match comparewith with
    | None =>
        branches ← _get_remote_branches w base_directory encoding;
        _get_default_compare_branch branches
    | Some _ => mret comparewith
    end;
  match comparewith with
  | None => echo MsgNoDefaultBranch;; sys_exit 1
  | Some comparewith =>
      files_changed ←
        try_CalledProcessError
          (raw ← _run w ["git"; "diff"; "--name-only"; comparewith +:+ "..."]
                   base_directory;
           text ← bytes_decode w raw encoding;
           mret (Str.strip text))
          (λ returncode cmd output,
             echo MsgGitFailed;;
             echo_bytes w output;;
             raise (CalledProcessError returncode cmd output));
      if String.eqb files_changed "" then
        echo (MsgNoDiffs comparewith);; sys_exit 0
      else
        let files : gset string :=
          list_to_set
            ((λ path, posixpath.normpath (posixpath.join base_directory [path]))
               <$> Str.splitlines (Str.strip files_changed)) in
        echo MsgLooking;;
        echo MsgRule;;
        for_each (enumerate 1 (elements files))
          (λ '(n, change), echo (MsgItem n change));;
        echo MsgRule;;
        let news_file :=
          posixpath.normpath (posixpath.join base_directory [config_filename config]) in
        if bool_decide (news_file ∈ files) then
          echo MsgSkipped;; sys_exit 0
        else
          let by_package :=
            (posixpath.abspath (getcwd w)
               (posixpath.join base_directory [config_package_dir config; config_package config]),
             Some "newsfragments") in
          let '(fragment_base_directory, fragment_directory) :=
            match config_directory config with
            | Some d =>
                if String.eqb d "" then by_package
                else (posixpath.abspath (getcwd w) d, None)
            | None => by_package
            end in
          found ← call_find_fragments w fragment_base_directory (config_sections config)
                    fragment_directory (config_types config);
          let fragments : gset string :=
            list_to_set (posixpath.normpath <$> found.2) in
          let fragments_in_branch := fragments ∩ files in
          if bool_decide (fragments_in_branch = ∅) then
            echo MsgNotFound;; sys_exit 1
          else
            echo MsgFound;;
            for_each (enumerate 1 (elements fragments_in_branch))
              (λ '(n, fragment), echo (MsgItem n fragment));;
            sys_exit 0
  end.

(** The [click] command: each option is [None] when it is not given. *)
Definition _main (w : world) (compare_with directory config : option string)
  : M unit :=
  __main w compare_with directory config.

End Check.

Arguments config_t : clear implicits.
Arguments world : clear implicits.

(** ** Vocabulary of the statements

    Names for the intermediate values of [__main] and for what a log
    shows, used to state the properties of a run. *)
Section Observations.

Context {sections_t types_t content_t : Type}.
Local Abbreviation world := (world sections_t types_t content_t).
Local Abbreviation config_t := (config_t sections_t types_t).
Local Abbreviation M := (M sections_t types_t).
Local Abbreviation event := (event sections_t types_t).

Definition git_branch_r : list string := ["git"; "branch"; "-r"].

Definition git_diff (comparewith : string) : list string :=
  ["git"; "diff"; "--name-only"; comparewith +:+ "..."].

(** Line 76: the two results of [load_config_from_options]. *)
Definition run_base_directory (w : world) (directory config : option string) : string :=
  (load_config_from_options w directory config).1.

Definition run_config (w : world) (directory config : option string) : config_t :=
  (load_config_from_options w directory config).2.

(** Line 81: the encoding the run decodes with. *)
Definition run_encoding (w : world) : py_value :=
  getattr (stdout_encoding w) (PyStr "utf8").

(** Lines 82-85: the comparison branch, given or defaulted. *)
Definition resolve_comparewith (w : world) (base_directory : string)
    (encoding : py_value) (comparewith : option string) : M (option string) :=
  match comparewith with
  | None =>
      branches ← _get_remote_branches w base_directory encoding;
      _get_default_compare_branch branches
  | Some _ => mret comparewith
  end.

(** Lines 110-113: the set [files]. *)
Definition changed_file_set (base_directory files_changed : string) : gset string :=
  list_to_set
    ((λ path, posixpath.normpath (posixpath.join base_directory [path]))
       <$> Str.splitlines (Str.strip files_changed)).

(** Line 121: [news_file]. *)
Definition news_file_path (base_directory : string) (config : config_t) : string :=
  posixpath.normpath (posixpath.join base_directory [config_filename config]).

(** Lines 126-133: where fragments are searched, and under which
    subdirectory. *)
Definition package_search (w : world) (base_directory : string)
    (config : config_t) : string * option string :=
  (posixpath.abspath (getcwd w)
     (posixpath.join base_directory [config_package_dir config; config_package config]),
   Some "newsfragments").

Definition fragment_search (w : world) (base_directory : string)
    (config : config_t) : string * option string :=
  match config_directory config with
  | Some d =>
      if String.eqb d "" then package_search w base_directory config
      else (posixpath.abspath (getcwd w) d, None)
  | None => package_search w base_directory config
  end.

(** Lines 135-143: the set [fragments]. *)
Definition fragment_path_set (found : list string) : gset string :=
  list_to_set (posixpath.normpath <$> found).

Definition discovered (w : world) (base_directory : string) (config : config_t)
  : list string :=
  (find_fragments w (fragment_search w base_directory config).1
     (config_sections config) (fragment_search w base_directory config).2
     (config_types config)).2.

(** The numbered lines of the two [for] loops. *)
Definition numbered (paths : list string) : list event :=
  (λ '(n, path), EvEcho (MsgItem n path)) <$> enumerate 1 paths.

(** Lines 115-119: the listing of the changed files. *)
Definition listing (files : gset string) : list event :=
  [EvEcho MsgLooking; EvEcho MsgRule] ++ numbered (elements files) ++ [EvEcho MsgRule].

(** The messages that precede a [sys.exit]. *)
Definition terminal (m : message) : bool :=
  match m with
  | MsgNoDefaultBranch | MsgNoDiffs _ | MsgSkipped | MsgNotFound | MsgFound => true
  | _ => false
  end.

Definition terminal_event (e : event) : bool :=
  match e with
  | EvEcho m => terminal m
  | _ => false
  end.

(** The exit status that goes with a terminal message. *)
Definition exit_status (m : message) : Z :=
  match m with
  | MsgNoDefaultBranch | MsgNotFound => 1
  | _ => 0
  end.

Definition is_find_fragments (e : event) : bool :=
  match e with
  | EvFindFragments _ _ _ _ => true
  | _ => false
  end.

Definition is_echo (e : event) : bool :=
  match e with
  | EvEcho _ => true
  | _ => false
  end.

(** The log of the resolution shows at most the listing of the remote
    branches and the deprecation warning. *)
Definition resolution_event (base : string) (e : event) : Prop :=
  e = EvRun git_branch_r base ∨ ∃ msg, e = EvWarn DeprecationWarning msg.

(** Whether a log shows a call of [find_fragments]. *)
Definition discovery_invoked (log : list event) : bool :=
  existsb is_find_fragments log.

(** The calls of [find_fragments] a log shows, in order. *)
Definition discoveries (log : list event) : list event :=
  List.filter is_find_fragments log.

(** The terminal messages of a log, in order. *)
Definition terminal_echoes (log : list event) : list event :=
  List.filter terminal_event log.

(** The commands a log shows, with their working directories. *)
Fixpoint commands (log : list event) : list (list string * string) :=
  match log with
  | [] => []
  | EvRun args cwd :: log' => (args, cwd) :: commands log'
  | _ :: log' => commands log'
  end.

Fixpoint warnings (log : list event) : list string :=
  match log with
  | [] => []
  | EvWarn _ msg :: log' => msg :: warnings log'
  | _ :: log' => warnings log'
  end.

(** The paths of the numbered lines of a log. *)
Fixpoint items (log : list event) : list string :=
  match log with
  | [] => []
  | EvEcho (MsgItem _ path) :: log' => path :: items log'
  | _ :: log' => items log'
  end.

(** The paths listed after "Found:". *)
Fixpoint found_report (log : list event) : list string :=
  match log with
  | [] => []
  | EvEcho MsgFound :: log' => items log'
  | _ :: log' => found_report log'
  end.

(** Lines 91-102 as a computation of their own: the diff command, its
    decoded and stripped output, and the handler of its failure. *)
Definition diff_stage (w : world) (base_directory : string)
    (encoding : py_value) (comparewith : string) : M string :=
  try_CalledProcessError
    (raw ← _run w ["git"; "diff"; "--name-only"; comparewith +:+ "..."]
             base_directory;
     text ← bytes_decode w raw encoding;
     mret (Str.strip text))
    (λ returncode cmd output,
       echo MsgGitFailed;;
       echo_bytes w output;;
       raise (CalledProcessError returncode cmd output)).

(** Lines 104-153 as a computation of their own: what the run does
    with the stripped diff output. *)
Definition check_stage (w : world) (base_directory : string)
    (config : config_t) (comparewith files_changed : string) : M unit :=
  if String.eqb files_changed "" then
    echo (MsgNoDiffs comparewith);; sys_exit 0
  else
    let files := changed_file_set base_directory files_changed in
    echo MsgLooking;;
    echo MsgRule;;
    for_each (enumerate 1 (elements files))
      (λ '(n, change), echo (MsgItem n change));;
    echo MsgRule;;
    if bool_decide (news_file_path base_directory config ∈ files) then
      echo MsgSkipped;; sys_exit 0
    else
      let '(fragment_base_directory, fragment_directory) :=
        fragment_search w base_directory config in
      found ← call_find_fragments w fragment_base_directory
                (config_sections config) fragment_directory (config_types config);
      let fragments_in_branch := fragment_path_set found.2 ∩ files in
      if bool_decide (fragments_in_branch = ∅) then
        echo MsgNotFound;; sys_exit 1
      else
        echo MsgFound;;
        for_each (enumerate 1 (elements fragments_in_branch))
          (λ '(n, fragment), echo (MsgItem n fragment));;
        sys_exit 0.


(** The exceptions of [bytes.decode]. *)
Definition decode_failure (e : exn) : Prop :=
  match e with
  | TypeError _ | UnicodeDecodeError _ _ | LookupError _ => True
  | CalledProcessError _ _ _ | OSError _ _ => False
  end.

(** The exception [check_output] raises for a command, if any. *)
Definition command_failure (args : list string) (r : process_result) : option exn :=
  match r with
  | Completed _ => None
  | Failed returncode output => Some (CalledProcessError returncode args output)
  | NotStarted errno strerror => Some (OSError errno strerror)
  end.


End Observations.

(** ** Paths that differ by redundant parts

    The forms of the documentation of [os.path.normpath]: [A//B],
    [A/B/], [A/./B] and [A/foo/../B] against [A/B], and a leading [./]
    or [foo/../] before a relative path. *)

(** The components [normpath] keeps; only whether the path is absolute
    matters to the loop. *)
Definition kept (p : string) : list string :=
  posixpath.normpath_comps (if posixpath.isabs p then 1 else 0) (Str.split "/" p).

(** A path component that is a name: not empty, not [.] or [..], and
    without a separator. *)
Definition is_name (x : string) : Prop :=
  x ≠ "" ∧ x ≠ "." ∧ x ≠ ".." ∧ Str.split "/" x = [x].

Inductive redundant_step : string → string → Prop :=
| step_separator a b :
    redundant_step (a +:+ "/" +:+ b) (a +:+ "//" +:+ b)
| step_trailing a :
    a ≠ "" → redundant_step a (a +:+ "/")
| step_dot a b :
    redundant_step (a +:+ "/" +:+ b) (a +:+ "/./" +:+ b)
| step_dotdot a x b :
    is_name x → redundant_step (a +:+ "/" +:+ b) (a +:+ "/" +:+ x +:+ "/../" +:+ b)
| step_dot_leading b :
    posixpath.isabs b = false → redundant_step b ("./" +:+ b)
| step_dotdot_leading x b :
    is_name x → posixpath.isabs b = false → redundant_step b (x +:+ "/../" +:+ b).

(** Two paths differ only by redundant separators and [.] or [..]
    segments when a chain of such steps, in either direction, leads from
    one to the other. *)
Definition differ_by_redundancy : relation string := rtsc redundant_step.

(** The components of a normalised path: a run of [..], none when the
    path is absolute, and then names. *)
Definition normalised_components (absolute : bool) (comps : list string) : Prop :=
  ∃ dots names, comps = dots ++ names
    ∧ Forall (λ x, x = "..") dots ∧ Forall is_name names
    ∧ (absolute = true → dots = []).

(** The last lines of [normpath]: the path made of the initial
    slashes and of the components that were kept. *)
Definition assembled (initial : nat) (comps : list string) : string :=
  let path' := Str.join posixpath.sep comps in
  let path' :=
    match initial with
    | 0 => path'
    | 1 => posixpath.sep +:+ path'
    | _ => posixpath.sep +:+ posixpath.sep +:+ path'
    end in
  if String.eqb path' "" then "." else path'.

(** ** Concrete runs *)
Module Examples.

Definition nl : string := String "010" "".

Definition utf8_bytes (s : string) : bytes := list_byte_of_string s.

(** A codec that knows "utf8" and "latin-1" and reads one character per
    byte. *)
Definition one_byte_codec (encoding : string) (b : bytes) : codec_result :=
  if String.eqb encoding "utf8" || String.eqb encoding "latin-1"
  then Decoded (string_of_list_byte b)
  else UnknownEncoding.

Definition config1 (dir : option string) : config_t unit unit := {|
  config_filename := "NEWS.rst";
  config_directory := dir;
  config_package_dir := ".";
  config_package := "";
  config_sections := tt;
  config_types := tt;
|}.

(** A checkout in [/repo]: [branch_r] and [diff] are what the two git
    commands answer, [found] the paths fragment discovery returns. *)
Definition repo (enc : option py_value) (dir : option string)
    (branch_r diff : process_result) (found : list string) : world unit unit unit := {|
  stdout_encoding := enc;
  stdout_bytes := BinaryWriter;
  getcwd := "/repo";
  check_output := λ args _ _,
    if bool_decide (args = ["git"; "branch"; "-r"]) then branch_r else diff;
  codec := one_byte_codec;
  load_config_from_options := λ _ _, ("/repo", config1 dir);
  find_fragments := λ _ _ _ _, (tt, found);
|}.

Definition branches_main : process_result :=
  Completed (utf8_bytes ("  origin/HEAD -> origin/main" +:+ nl +:+ "  origin/main" +:+ nl
                         +:+ "  origin/master" +:+ nl)).

Definition diff_feature : process_result :=
  Completed (utf8_bytes ("src/feature.py" +:+ nl +:+ "newsfragments/123.feature" +:+ nl)).

Definition branches_master : process_result :=
  Completed (utf8_bytes ("  origin/master" +:+ nl +:+ "  origin/topic" +:+ nl)).


Definition diff_source : process_result :=
  Completed (utf8_bytes ("src/feature.py" +:+ nl)).

Definition diff_news : process_result :=
  Completed (utf8_bytes ("NEWS.rst" +:+ nl +:+ "src/feature.py" +:+ nl)).

Definition diff_nothing : process_result := Completed (utf8_bytes nl).

Definition bad_revision : process_result :=
  Failed 128 (utf8_bytes ("fatal: bad revision 'nowhere...'" +:+ nl)).

Definition utf8 : option py_value := Some (PyStr "utf8").

(** The branch adds a fragment that discovery finds. *)
Definition w_found : world unit unit unit :=
  repo utf8 None branches_main diff_feature
    ["/repo/newsfragments/123.feature"; "/repo/newsfragments/7.bugfix"].

(** The branch changes a source file only. *)
Definition w_not_found : world unit unit unit :=
  repo utf8 None branches_main diff_source ["/repo/newsfragments/7.bugfix"].

(** The branch edits the news file. *)
Definition w_news : world unit unit unit :=
  repo utf8 None branches_main diff_news ["/repo/newsfragments/7.bugfix"].

(** Nothing differs from the comparison branch. *)
Definition w_no_diff : world unit unit unit :=
  repo utf8 None branches_main diff_nothing [].

(** The diff against an unknown revision fails. *)
Definition w_bad_revision : world unit unit unit :=
  repo utf8 None branches_main bad_revision [].

(** [sys.stdout.encoding] is [None], as when the output is piped. *)
Definition w_piped : world unit unit unit :=
  repo (Some PyNone) None branches_main diff_feature
    ["/repo/newsfragments/123.feature"].

(** The configuration has [directory = ""]. *)
Definition w_empty_directory : world unit unit unit :=
  repo utf8 (Some "") branches_main diff_feature
    ["/repo/newsfragments/123.feature"].


(** The fragment directory is configured with two leading slashes, and
    so are the paths discovery returns. *)
Definition w_double_slash : world unit unit unit :=
  repo utf8 (Some "//repo/newsfragments") branches_main diff_feature
    ["//repo/newsfragments/123.feature"].

Definition branches_develop : process_result :=
  Completed (utf8_bytes ("  origin/HEAD -> origin/main" +:+ nl +:+ "  origin/develop" +:+ nl)).

(** The same file twice, once with a redundant prefix. *)
Definition diff_repeated : process_result :=
  Completed (utf8_bytes ("src/a.py" +:+ nl +:+ "./src/a.py" +:+ nl +:+ "src/b.py" +:+ nl)).

(** The remote has neither "origin/main" nor "origin/master" as a
    branch of its own. *)
Definition w_no_default : world unit unit unit :=
  repo utf8 None branches_develop diff_feature [].

(** The remote has "origin/master" and no "origin/main". *)
Definition w_master : world unit unit unit :=
  repo utf8 None branches_master diff_source ["/repo/newsfragments/7.bugfix"].

(** [sys.stdout.encoding] names no codec. *)
Definition w_unknown_encoding : world unit unit unit :=
  repo (Some (PyStr "klingon")) None branches_main diff_feature [].

(** The command runs in [/home/dev] on the project in [/repo], whose
    configuration has [directory = "news"]. *)
Definition w_elsewhere : world unit unit unit := {|
  stdout_encoding := utf8;
  stdout_bytes := BinaryWriter;
  getcwd := "/home/dev";
  check_output := λ args _ _,
    if bool_decide (args = ["git"; "branch"; "-r"]) then branches_main
    else diff_source;
  codec := one_byte_codec;
  load_config_from_options := λ _ _, ("/repo", config1 (Some "news"));
  find_fragments := λ _ _ _ _, (tt, ["/home/dev/news/7.bugfix"]);
|}.

(** The diff names a file twice. *)
Definition w_repeated : world unit unit unit :=
  repo utf8 None branches_main diff_repeated [].

(** Discovery finds no fragment at all. *)
Definition w_no_fragment : world unit unit unit :=
  repo utf8 None branches_main diff_source [].



End Examples.


(** * Properties *)

(** ** The effect monad *)
Section MonadFacts.

Context {sections_t types_t : Type}.
Local Abbreviation M := (M sections_t types_t).
Local Abbreviation event := (event sections_t types_t).

Lemma bind_Return {A B} (l : list event) (a : A) (k : A → M B) :
  ((l, Return a) : M A) ≫= k = (l ++ (k a).1, (k a).2).
Proof. unfold mbind, M_bind. destruct (k a); reflexivity. Qed.

Lemma bind_mret {A B} (a : A) (k : A → M B) : (mret a : M A) ≫= k = k a.
Proof. unfold mret, M_ret, mbind, M_bind. destruct (k a). reflexivity. Qed.

Lemma bind_SysExit {A B} (l : list event) code (k : A → M B) :
  ((l, SysExit code) : M A) ≫= k = (l, SysExit code).
Proof. reflexivity. Qed.

Lemma bind_Raised {A B} (l : list event) e (k : A → M B) :
  ((l, Raised e) : M A) ≫= k = (l, Raised e).
Proof. reflexivity. Qed.

Lemma for_each_items (xs : list (nat * string)) :
  (for_each xs (λ '(n, path), echo (MsgItem n path)) : M unit)
  = ((λ '(n, path), EvEcho (MsgItem n path)) <$> xs, Return tt).
Proof.
  induction xs as [|[n path] xs IH]; [reflexivity|].
  cbn [for_each]. rewrite IH. reflexivity.
Qed.

End MonadFacts.

Section Run.

Context {sections_t types_t content_t : Type}.
Local Abbreviation world := (world sections_t types_t content_t).
Local Abbreviation config_t := (config_t sections_t types_t).
Local Abbreviation M := (M sections_t types_t).
Local Abbreviation event := (event sections_t types_t).

(** [__main] is its three stages in sequence. *)
Lemma main_stages (w : world) (comparewith directory config : option string) :
  __main w comparewith directory config
  = (let base := run_base_directory w directory config in
     let cfg := run_config w directory config in
     branch ← resolve_comparewith w base (run_encoding w) comparewith;
     match branch with
     | None => echo MsgNoDefaultBranch;; sys_exit 1
     | Some b =>
         files_changed ← diff_stage w base (run_encoding w) b;
         check_stage w base cfg b files_changed
     end).
Proof.
  unfold __main, run_base_directory, run_config.
  destruct (load_config_from_options w directory config) as [base cfg].
  reflexivity.
Qed.

(** [bytes.decode] leaves no trace and fails only with a decoding
    error. *)
Lemma bytes_decode_cases (w : world) raw encoding :
  (∃ text, bytes_decode w raw encoding = mret text)
  ∨ (∃ e, bytes_decode w raw encoding = raise e ∧ decode_failure e).
Proof.
  unfold bytes_decode. destruct encoding as [|enc].
  - right. eexists. split; [reflexivity|exact I].
  - destruct (codec w enc raw).
    + left. eexists. reflexivity.
    + right. eexists. split; [reflexivity|exact I].
    + right. eexists. split; [reflexivity|exact I].
Qed.

Lemma diff_stage_completed (w : world) base encoding b raw text :
  check_output w (git_diff b) base STDOUT = Completed raw →
  bytes_decode w raw encoding = mret text →
  diff_stage w base encoding b = ([EvRun (git_diff b) base], Return (Str.strip text)).
Proof.
  unfold diff_stage, _run, git_diff. intros -> Hdec.
  cbn. rewrite Hdec. reflexivity.
Qed.

Lemma diff_stage_undecodable (w : world) base encoding b raw e :
  check_output w (git_diff b) base STDOUT = Completed raw →
  bytes_decode w raw encoding = raise e → decode_failure e →
  diff_stage w base encoding b = ([EvRun (git_diff b) base], Raised e).
Proof.
  unfold diff_stage, _run, git_diff. intros -> Hdec He.
  cbn. rewrite Hdec. destruct e; [destruct He|reflexivity..].
Qed.

Lemma diff_stage_failed (w : world) base encoding b returncode output :
  check_output w (git_diff b) base STDOUT = Failed returncode output →
  stdout_bytes w = BinaryWriter →
  diff_stage w base encoding b
  = ([EvRun (git_diff b) base; EvEcho MsgGitFailed; EvEcho (MsgOutput output)],
     Raised (CalledProcessError returncode (git_diff b) output)).
Proof.
  unfold diff_stage, _run, git_diff, echo_bytes. intros -> ->. reflexivity.
Qed.

Lemma diff_stage_failed_text (w : world) base encoding b returncode output error :
  check_output w (git_diff b) base STDOUT = Failed returncode output →
  stdout_bytes w = TextOnly error →
  diff_stage w base encoding b
  = ([EvRun (git_diff b) base; EvEcho MsgGitFailed], Raised (TypeError error)).
Proof.
  unfold diff_stage, _run, git_diff, echo_bytes. intros -> ->. reflexivity.
Qed.

Lemma diff_stage_not_started (w : world) base encoding b errno strerror :
  check_output w (git_diff b) base STDOUT = NotStarted errno strerror →
  diff_stage w base encoding b
  = ([EvRun (git_diff b) base], Raised (OSError errno strerror)).
Proof.
  unfold diff_stage, _run, git_diff. intros ->. reflexivity.
Qed.

(** What the last stage logs and how it ends, in closed form. *)
Lemma check_stage_eq (w : world) base (cfg : config_t) b files_changed :
  check_stage w base cfg b files_changed
  = if String.eqb files_changed "" then ([EvEcho (MsgNoDiffs b)], SysExit 0)
    else
      let files := changed_file_set base files_changed in
      if bool_decide (news_file_path base cfg ∈ files)
      then (listing files ++ [EvEcho MsgSkipped], SysExit 0)
      else
        let search := fragment_search w base cfg in
        let found := fragment_path_set (discovered w base cfg) ∩ files in
        (listing files
         ++ [EvFindFragments search.1 (config_sections cfg) search.2 (config_types cfg)]
         ++ (if bool_decide (found = ∅) then [EvEcho MsgNotFound]
             else EvEcho MsgFound :: numbered (elements found)),
         SysExit (if bool_decide (found = ∅) then 1 else 0)%Z).
Proof.
  unfold check_stage.
  destruct (String.eqb files_changed ""); [reflexivity|].
  cbv zeta. rewrite for_each_items.
  destruct (bool_decide (news_file_path base cfg ∈ _)).
  { cbn. unfold listing, numbered. cbn.
    rewrite <- !app_assoc. reflexivity. }
  unfold discovered, call_find_fragments.
  destruct (fragment_search w base cfg) as [fb fd]. cbn [fst snd].
  cbn.
  set (found := fragment_path_set _ ∩ _).
  destruct (bool_decide (found = ∅)).
  { unfold listing, numbered. cbn. rewrite <- !app_assoc. reflexivity. }
  rewrite for_each_items. unfold listing, numbered. cbn.
  rewrite <- !app_assoc, app_nil_r. reflexivity.
Qed.

Lemma default_compare_branch_log branches log r :
  _get_default_compare_branch branches = ((log, r) : M (option string)) →
  (∃ o, r = Return o) ∧ ∀ base, Forall (resolution_event base) log.
Proof.
  unfold _get_default_compare_branch.
  repeat case_bool_decide; intros [= <- <-]; (split; [eexists; reflexivity|]);
    intros base; try (constructor; fail).
  constructor; [|constructor]. right. eexists. reflexivity.
Qed.

Lemma resolve_comparewith_log (w : world) base encoding comparewith log r :
  resolve_comparewith w base encoding comparewith = (log, r) →
  Forall (resolution_event base) log
  ∧ (∀ b, comparewith = Some b → log = [] ∧ r = Return (Some b)).
Proof.
  unfold resolve_comparewith. destruct comparewith as [b|].
  - intros [= <- <-]. split; [constructor|]. intros ? [= <-]. done.
  - intros H. split; [|done]. revert H.
    unfold _get_remote_branches, _run, git_branch_r.
    destruct (check_output w _ base STDOUT) as [raw|rc out|errno strerror]; cbn.
    + destruct (bytes_decode_cases w raw encoding) as [[text ->]|[e [-> _]]]; cbn.
      * destruct (_get_default_compare_branch _) as [l o] eqn:E.
        intros [= <- <-].
        apply default_compare_branch_log in E as [_ E].
        constructor; [left; reflexivity|apply E].
      * intros [= <- <-]. repeat constructor.
    + intros [= <- <-]. repeat constructor.
    + intros [= <- <-]. repeat constructor.
Qed.

Lemma resolution_event_quiet base (e : event) :
  resolution_event base e →
  terminal_event e = false ∧ is_find_fragments e = false ∧ is_echo e = false.
Proof. intros [->|[msg ->]]; done. Qed.

Lemma numbered_quiet (paths : list string) :
  Forall (λ e : event, terminal_event e = false ∧ is_find_fragments e = false)
    (numbered paths).
Proof.
  unfold numbered. generalize 1. induction paths as [|p paths IH]; intros n; cbn.
  - constructor.
  - constructor; [done|apply IH].
Qed.

Lemma items_numbered (paths : list string) :
  items (numbered paths : list event) = paths.
Proof.
  unfold numbered. generalize 1. induction paths as [|p paths IH]; intros n; cbn.
  - reflexivity.
  - f_equal. apply IH.
Qed.

Lemma commands_numbered (paths : list string) :
  commands (numbered paths : list event) = [].
Proof.
  unfold numbered. generalize 1. induction paths as [|p paths IH]; intros n; cbn.
  - reflexivity.
  - apply IH.
Qed.

Lemma listing_quiet (files : gset string) :
  Forall (λ e : event, terminal_event e = false ∧ is_find_fragments e = false)
    (listing files).
Proof.
  unfold listing. repeat (apply Forall_app; split); try (repeat constructor; done).
  apply numbered_quiet.
Qed.

Lemma listing_no_terminal (files : gset string) :
  Forall (λ e : event, terminal_event e = false) (listing files).
Proof. eapply Forall_impl; [apply listing_quiet|]. intros e [? ?]. done. Qed.

Lemma listing_no_discovery (files : gset string) :
  Forall (λ e : event, is_find_fragments e = false) (listing files).
Proof. eapply Forall_impl; [apply listing_quiet|]. intros e [? ?]. done. Qed.

Lemma numbered_no_terminal (paths : list string) :
  Forall (λ e : event, terminal_event e = false) (numbered paths).
Proof. eapply Forall_impl; [apply numbered_quiet|]. intros e [? ?]. done. Qed.

Lemma terminal_echoes_quiet (log : list event) :
  Forall (λ e, terminal_event e = false) log → terminal_echoes log = [].
Proof.
  unfold terminal_echoes. induction 1 as [|e log He _ IH]; cbn; [done|].
  rewrite He. apply IH.
Qed.

Lemma discoveries_quiet (log : list event) :
  Forall (λ e, is_find_fragments e = false) log → discoveries log = [].
Proof.
  unfold discoveries. induction 1 as [|e log He _ IH]; cbn; [done|].
  rewrite He. apply IH.
Qed.

Lemma discoveries_app (l1 l2 : list event) :
  discoveries (l1 ++ l2) = discoveries l1 ++ discoveries l2.
Proof. apply List.filter_app. Qed.

Lemma numbered_no_discovery (paths : list string) :
  Forall (λ e : event, is_find_fragments e = false) (numbered paths).
Proof. eapply Forall_impl; [apply numbered_quiet|]. intros e [? ?]. done. Qed.

Lemma terminal_echoes_app (l1 l2 : list event) :
  terminal_echoes (l1 ++ l2) = terminal_echoes l1 ++ terminal_echoes l2.
Proof. apply List.filter_app. Qed.

Lemma discovery_invoked_quiet (log : list event) :
  Forall (λ e, is_find_fragments e = false) log → discovery_invoked log = false.
Proof.
  unfold discovery_invoked. induction 1 as [|e log He _ IH]; cbn; [done|].
  rewrite He. apply IH.
Qed.

Lemma found_report_quiet (l1 l2 : list event) :
  Forall (λ e, terminal_event e = false) l1 →
  found_report (l1 ++ l2) = found_report l2.
Proof.
  induction 1 as [|e l1 He _ IH]; cbn; [done|].
  destruct e as [| |m|]; try apply IH. destruct m; try apply IH. done.
Qed.

Lemma commands_app (l1 l2 : list event) :
  commands (l1 ++ l2) = commands l1 ++ commands l2.
Proof.
  induction l1 as [|e l1 IH]; [reflexivity|].
  destruct e; cbn; rewrite ?IH; reflexivity.
Qed.

Lemma commands_listing (files : gset string) :
  commands (listing files : list event) = [].
Proof.
  unfold listing. rewrite !commands_app, commands_numbered. reflexivity.
Qed.

(** The ways the diff stage ends, each with what the command and the
    decoding did. *)
Lemma diff_stage_cases (w : world) base encoding b :
  (∃ raw text, check_output w (git_diff b) base STDOUT = Completed raw
     ∧ bytes_decode w raw encoding = mret text
     ∧ diff_stage w base encoding b
       = ([EvRun (git_diff b) base], Return (Str.strip text)))
  ∨ (∃ raw e, check_output w (git_diff b) base STDOUT = Completed raw
       ∧ bytes_decode w raw encoding = raise e ∧ decode_failure e
       ∧ diff_stage w base encoding b = ([EvRun (git_diff b) base], Raised e))
  ∨ (∃ returncode output,
       check_output w (git_diff b) base STDOUT = Failed returncode output
       ∧ stdout_bytes w = BinaryWriter
       ∧ diff_stage w base encoding b
         = ([EvRun (git_diff b) base; EvEcho MsgGitFailed; EvEcho (MsgOutput output)],
            Raised (CalledProcessError returncode (git_diff b) output)))
  ∨ (∃ returncode output error,
       check_output w (git_diff b) base STDOUT = Failed returncode output
       ∧ stdout_bytes w = TextOnly error
       ∧ diff_stage w base encoding b
         = ([EvRun (git_diff b) base; EvEcho MsgGitFailed], Raised (TypeError error)))
  ∨ (∃ errno strerror,
       check_output w (git_diff b) base STDOUT = NotStarted errno strerror
       ∧ diff_stage w base encoding b
         = ([EvRun (git_diff b) base], Raised (OSError errno strerror))).
Proof.
  destruct (check_output w (git_diff b) base STDOUT)
    as [raw|rc out|errno strerror] eqn:Hrun.
  - destruct (bytes_decode_cases w raw encoding) as [[text Hdec]|[e [Hdec He]]].
    + left. exists raw, text. split; [reflexivity|]. split; [exact Hdec|].
      apply (diff_stage_completed _ _ _ _ _ _ Hrun Hdec).
    + right. left. exists raw, e. split; [reflexivity|]. split; [exact Hdec|].
      split; [exact He|]. apply (diff_stage_undecodable _ _ _ _ _ _ Hrun Hdec He).
  - destruct (stdout_bytes w) as [|error] eqn:Hsink.
    + right. right. left. exists rc, out. split; [reflexivity|]. split; [reflexivity|].
      apply (diff_stage_failed _ _ _ _ _ _ Hrun Hsink).
    + right. right. right. left. exists rc, out, error.
      split; [reflexivity|]. split; [reflexivity|].
      apply (diff_stage_failed_text _ _ _ _ _ _ _ Hrun Hsink).
  - right. right. right. right. exists errno, strerror. split; [reflexivity|].
    apply (diff_stage_not_started _ _ _ _ _ _ Hrun).
Qed.

(** The ways the resolution of the comparison branch ends. *)
Lemma resolve_comparewith_cases (w : world) base encoding comparewith :
  (∃ pre o, resolve_comparewith w base encoding comparewith = (pre, Return o)
            ∧ Forall (resolution_event base) pre
            ∧ (is_Some comparewith → pre = [] ∧ o = comparewith))
  ∨ (comparewith = None
     ∧ ∃ e, resolve_comparewith w base encoding comparewith
            = ([EvRun git_branch_r base], Raised e)
       ∧ (command_failure git_branch_r (check_output w git_branch_r base STDOUT)
            = Some e
          ∨ ∃ raw, check_output w git_branch_r base STDOUT = Completed raw
              ∧ bytes_decode w raw encoding = raise e ∧ decode_failure e)).
Proof.
  destruct comparewith as [b|].
  - left. exists [], (Some b). split; [reflexivity|]. split; [constructor|done].
  - unfold resolve_comparewith, _get_remote_branches, _run. fold git_branch_r.
    destruct (check_output w git_branch_r base STDOUT)
      as [raw|rc out|errno strerror]; cbn.
    + destruct (bytes_decode_cases w raw encoding) as [[text ->]|[e [Hdec He]]].
      * cbn. left. destruct (_get_default_compare_branch _) as [l r] eqn:E.
        destruct (default_compare_branch_log _ _ _ E) as [[o ->] Hl].
        exists (EvRun git_branch_r base :: l), o.
        split; [reflexivity|]. split; [|intros [? [=]]].
        constructor; [left; reflexivity|apply Hl].
      * rewrite Hdec. cbn. right. split; [reflexivity|]. exists e.
        split; [reflexivity|]. right. exists raw. done.
    + right. split; [reflexivity|]. eexists. split; [reflexivity|]. by left.
    + right. split; [reflexivity|]. eexists. split; [reflexivity|]. by left.
Qed.

(** The last stage ends with [sys.exit] after one terminal message,
    and runs no command. *)
Lemma check_stage_terminal (w : world) base (cfg : config_t) b files_changed :
  ∃ m, (check_stage w base cfg b files_changed).2 = SysExit (exit_status m)
       ∧ terminal_echoes (check_stage w base cfg b files_changed).1 = [EvEcho m]
       ∧ commands (check_stage w base cfg b files_changed).1 = [].
Proof.
  rewrite check_stage_eq.
  destruct (String.eqb files_changed "").
  { exists (MsgNoDiffs b). done. }
  cbv zeta. case_bool_decide.
  { exists MsgSkipped. cbn [fst snd]. split; [reflexivity|].
    rewrite terminal_echoes_app, commands_app, commands_listing.
    rewrite (terminal_echoes_quiet _ (listing_no_terminal _)). done. }
  case_bool_decide; cbn [fst snd].
  - exists MsgNotFound. split; [reflexivity|].
    rewrite !terminal_echoes_app, !commands_app, commands_listing.
    rewrite (terminal_echoes_quiet _ (listing_no_terminal _)). done.
  - exists MsgFound. split; [reflexivity|].
    rewrite !terminal_echoes_app, !commands_app, commands_listing.
    rewrite (terminal_echoes_quiet _ (listing_no_terminal _)).
    cbn. rewrite commands_numbered.
    change (List.filter terminal_event ?l) with (terminal_echoes l).
    rewrite (terminal_echoes_quiet _ (numbered_no_terminal _)). done.
Qed.

Lemma warnings_app (l1 l2 : list event) :
  warnings (l1 ++ l2) = warnings l1 ++ warnings l2.
Proof.
  induction l1 as [|e l1 IH]; [reflexivity|].
  destruct e; cbn; rewrite ?IH; reflexivity.
Qed.

Lemma warnings_numbered (paths : list string) :
  warnings (numbered paths : list event) = [].
Proof.
  unfold numbered. generalize 1. induction paths as [|p paths IH]; intros n; cbn.
  - reflexivity.
  - apply IH.
Qed.

Lemma check_stage_warnings (w : world) base (cfg : config_t) b files_changed :
  warnings (check_stage w base cfg b files_changed).1 = [].
Proof.
  rewrite check_stage_eq.
  destruct (String.eqb files_changed ""); [reflexivity|].
  cbv zeta. unfold listing.
  repeat case_bool_decide; cbn [fst snd];
    rewrite ?warnings_app; cbn; rewrite ?warnings_app, ?warnings_numbered;
    reflexivity.
Qed.

End Run.

(** ** Runs that reach the diff

    The comparison branch [b] was given or defaulted, leaving the log
    [pre]. *)
Section AfterResolution.

Context {sections_t types_t content_t : Type}.
Local Abbreviation world := (world sections_t types_t content_t).
Local Abbreviation event := (event sections_t types_t).

Variables (w : world) (comparewith directory config : option string).
Variables (b : string) (pre : list event).

Local Abbreviation base := (run_base_directory w directory config).
Local Abbreviation cfg := (run_config w directory config).
Local Abbreviation encoding := (run_encoding w).

Hypothesis resolved :
  resolve_comparewith w base encoding comparewith = (pre, Return (Some b)).

Lemma pre_quiet :
  Forall (λ e : event, terminal_event e = false ∧ is_find_fragments e = false) pre.
Proof.
  apply resolve_comparewith_log in resolved as [H _].
  eapply Forall_impl; [exact H|]. intros e He.
  apply resolution_event_quiet in He. tauto.
Qed.

Lemma pre_no_terminal : Forall (λ e : event, terminal_event e = false) pre.
Proof. eapply Forall_impl; [apply pre_quiet|]. intros e [? ?]. done. Qed.

Lemma pre_no_discovery : Forall (λ e : event, is_find_fragments e = false) pre.
Proof. eapply Forall_impl; [apply pre_quiet|]. intros e [? ?]. done. Qed.

Ltac quiet_log :=
  repeat match goal with
  | |- Forall _ (listing _) =>
      first [apply listing_no_terminal | apply listing_no_discovery]
  | |- Forall _ (numbered _) =>
      first [apply numbered_no_terminal | apply numbered_no_discovery]
  | |- Forall _ pre => first [apply pre_no_terminal | apply pre_no_discovery]
  | |- Forall _ (_ ++ _) => apply Forall_app; split
  | |- Forall _ (_ :: _) => constructor; [reflexivity|]
  | |- Forall _ [] => constructor
  end.

Lemma main_after_resolution :
  __main w comparewith directory config
  = (pre ++ (diff_stage w base encoding b ≫= check_stage w base cfg b).1,
     (diff_stage w base encoding b ≫= check_stage w base cfg b).2).
Proof.
  rewrite main_stages. cbv zeta. rewrite resolved, bind_Return. reflexivity.
Qed.

(** The whole run, once the diff came back with a text. *)
Lemma main_after_diff raw text :
  check_output w (git_diff b) base STDOUT = Completed raw →
  bytes_decode w raw encoding = mret text →
  __main w comparewith directory config
  = (pre ++ [EvRun (git_diff b) base]
       ++ (check_stage w base cfg b (Str.strip text)).1,
     (check_stage w base cfg b (Str.strip text)).2).
Proof.
  intros Hrun Hdec. rewrite main_after_resolution.
  rewrite (diff_stage_completed _ _ _ _ _ _ Hrun Hdec), bind_Return.
  reflexivity.
Qed.

(** C5. When the output of the diff command is empty once stripped,
    the run echoes the "no diffs" message and exits with status 0, and
    [find_fragments] is not called. *)
Theorem C5_empty_diff_exits_0 raw text :
  check_output w (git_diff b) base STDOUT = Completed raw →
  bytes_decode w raw encoding = mret text →
  Str.strip text = "" →
  __main w comparewith directory config
  = (pre ++ [EvRun (git_diff b) base; EvEcho (MsgNoDiffs b)], SysExit 0)
  ∧ discovery_invoked (__main w comparewith directory config).1 = false.
Proof.
  intros Hrun Hdec Hempty.
  rewrite (main_after_diff _ _ Hrun Hdec), check_stage_eq, Hempty.
  split; [reflexivity|]. cbn [fst String.eqb].
  apply discovery_invoked_quiet. quiet_log.
Qed.


(** C4. When the normalised path of the news file is among the changed
    files, whatever the other changed files, the run echoes the
    "skipped" message and exits with status 0, and [find_fragments] is
    not called. *)
Theorem C4_news_file_skips raw text :
  check_output w (git_diff b) base STDOUT = Completed raw →
  bytes_decode w raw encoding = mret text →
  Str.strip text ≠ "" →
  news_file_path base cfg ∈ changed_file_set base (Str.strip text) →
  __main w comparewith directory config
  = (pre ++ [EvRun (git_diff b) base]
       ++ listing (changed_file_set base (Str.strip text))
       ++ [EvEcho MsgSkipped],
     SysExit 0)
  ∧ discovery_invoked (__main w comparewith directory config).1 = false.
Proof.
  intros Hrun Hdec Hne Hin.
  rewrite (main_after_diff _ _ Hrun Hdec), check_stage_eq.
  apply String.eqb_neq in Hne. rewrite Hne. cbv zeta.
  rewrite (bool_decide_eq_true_2 _ Hin). cbn [fst snd].
  split; [reflexivity|].
  apply discovery_invoked_quiet. quiet_log.
Qed.

(** The whole run, once it reaches the fragment search. *)
Lemma main_reaches_intersection raw text :
  check_output w (git_diff b) base STDOUT = Completed raw →
  bytes_decode w raw encoding = mret text →
  Str.strip text ≠ "" →
  news_file_path base cfg ∉ changed_file_set base (Str.strip text) →
  let files := changed_file_set base (Str.strip text) in
  let search := fragment_search w base cfg in
  let found := fragment_path_set (discovered w base cfg) ∩ files in
  __main w comparewith directory config
  = (pre ++ [EvRun (git_diff b) base] ++ listing files
       ++ [EvFindFragments search.1 (config_sections cfg) search.2 (config_types cfg)]
       ++ (if bool_decide (found = ∅) then [EvEcho MsgNotFound]
           else EvEcho MsgFound :: numbered (elements found)),
     SysExit (if bool_decide (found = ∅) then 1 else 0)%Z).
Proof.
  intros Hrun Hdec Hne Hnotin.
  rewrite (main_after_diff _ _ Hrun Hdec), check_stage_eq.
  apply String.eqb_neq in Hne. rewrite Hne. cbv zeta.
  rewrite (bool_decide_eq_false_2 _ Hnotin). reflexivity.
Qed.

(** C1. In a run that reaches the intersection, [fragments & files]
    decides the end: when it is empty the run echoes "not found" and
    exits with status 1; otherwise it exits with status 0 and the paths
    listed after "Found:" are exactly those of the intersection, each
    once. *)
Theorem C1_intersection_decides raw text :
  check_output w (git_diff b) base STDOUT = Completed raw →
  bytes_decode w raw encoding = mret text →
  Str.strip text ≠ "" →
  news_file_path base cfg ∉ changed_file_set base (Str.strip text) →
  let found :=
    fragment_path_set (discovered w base cfg)
    ∩ changed_file_set base (Str.strip text) in
  let run := __main w comparewith directory config in
  (found = ∅ →
     run.2 = SysExit 1 ∧ terminal_echoes run.1 = [EvEcho MsgNotFound]
     ∧ found_report run.1 = [])
  ∧ (found ≠ ∅ →
     run.2 = SysExit 0 ∧ terminal_echoes run.1 = [EvEcho MsgFound]
     ∧ NoDup (found_report run.1)
     ∧ ∀ path, path ∈ found_report run.1 ↔ path ∈ found).
Proof.
  intros Hrun Hdec Hne Hnotin found run.
  pose proof (main_reaches_intersection _ _ Hrun Hdec Hne Hnotin) as Hmain.
  cbv zeta in Hmain. fold found in Hmain. fold run in Hmain.
  assert (Hquiet : ∀ tail : list event,
    terminal_echoes (pre ++ [EvRun (git_diff b) base]
      ++ listing (changed_file_set base (Str.strip text))
      ++ [EvFindFragments (fragment_search w base cfg).1 (config_sections cfg)
            (fragment_search w base cfg).2 (config_types cfg)] ++ tail)
    = terminal_echoes tail
    ∧ found_report (pre ++ [EvRun (git_diff b) base]
      ++ listing (changed_file_set base (Str.strip text))
      ++ [EvFindFragments (fragment_search w base cfg).1 (config_sections cfg)
            (fragment_search w base cfg).2 (config_types cfg)] ++ tail)
    = found_report tail).
  { intros tail.
    assert (Hq : Forall (λ e : event, terminal_event e = false)
      (pre ++ [EvRun (git_diff b) base]
       ++ listing (changed_file_set base (Str.strip text))
       ++ [EvFindFragments (fragment_search w base cfg).1 (config_sections cfg)
             (fragment_search w base cfg).2 (config_types cfg)])).
    { quiet_log. }
    rewrite !app_assoc. rewrite !app_assoc in Hq.
    split.
    - rewrite terminal_echoes_app, (terminal_echoes_quiet _ Hq). reflexivity.
    - apply found_report_quiet, Hq. }
  split; intros Hfound.
  - rewrite Hmain, (bool_decide_eq_true_2 _ Hfound). cbn [fst snd].
    destruct (Hquiet [EvEcho MsgNotFound]) as [-> ->]. done.
  - rewrite Hmain, (bool_decide_eq_false_2 _ Hfound). cbn [fst snd].
    destruct (Hquiet (EvEcho MsgFound :: numbered (elements found))) as [-> ->].
    cbn [found_report]. rewrite items_numbered.
    split; [reflexivity|]. split.
    + unfold terminal_echoes. cbn. f_equal.
      apply (terminal_echoes_quiet (numbered (elements found))).
      apply numbered_no_terminal.
    + split; [apply NoDup_elements|]. intros path. apply elem_of_elements.
Qed.

(** C10. A configured fragment directory that is the empty string
    counts as no directory: the search base is the package directory
    and the subdirectory is "newsfragments", and this is the one call
    of [find_fragments] the run makes. *)
Theorem C10_empty_directory_is_absent raw text :
  config_directory cfg = Some "" →
  check_output w (git_diff b) base STDOUT = Completed raw →
  bytes_decode w raw encoding = mret text →
  Str.strip text ≠ "" →
  news_file_path base cfg ∉ changed_file_set base (Str.strip text) →
  fragment_search w base cfg
  = (posixpath.abspath (getcwd w)
       (posixpath.join base [config_package_dir cfg; config_package cfg]),
     Some "newsfragments")
  ∧ discoveries (__main w comparewith directory config).1
    = [EvFindFragments
         (posixpath.abspath (getcwd w)
            (posixpath.join base [config_package_dir cfg; config_package cfg]))
         (config_sections cfg) (Some "newsfragments") (config_types cfg)].
Proof.
  intros Hdir Hrun Hdec Hne Hnotin.
  assert (Hsearch : fragment_search w base cfg
    = (posixpath.abspath (getcwd w)
         (posixpath.join base [config_package_dir cfg; config_package cfg]),
       Some "newsfragments")).
  { unfold fragment_search. rewrite Hdir. reflexivity. }
  split; [exact Hsearch|].
  rewrite (main_reaches_intersection _ _ Hrun Hdec Hne Hnotin). cbn [fst].
  rewrite Hsearch. cbn [fst snd].
  rewrite !discoveries_app.
  rewrite (discoveries_quiet pre), (discoveries_quiet [_]),
    (discoveries_quiet (listing _)) by quiet_log.
  cbn [app]. rewrite <- (app_nil_r [_]) at 2.
  unfold discoveries at 1. cbn [List.filter is_find_fragments]. f_equal.
  apply discoveries_quiet.
  case_bool_decide; quiet_log.
Qed.

End AfterResolution.

(** ** Every run *)
Section WholeRun.

Context {sections_t types_t content_t : Type}.
Local Abbreviation world := (world sections_t types_t content_t).
Local Abbreviation M := (M sections_t types_t).
Local Abbreviation event := (event sections_t types_t).

(** C2. Whatever the other branches and their order, the default is
    "origin/main" when it is listed; "origin/master", with one
    deprecation warning and a normal return, when it is listed and
    "origin/main" is not; and [None] when neither is listed. *)
Theorem C2_default_branch_priority (branches : list string) :
  ("origin/main" ∈ branches →
     _get_default_compare_branch branches
     = (([], Return (Some "origin/main")) : M (option string)))
  ∧ ("origin/main" ∉ branches → "origin/master" ∈ branches →
     _get_default_compare_branch branches
     = (([EvWarn DeprecationWarning origin_master_deprecated],
         Return (Some "origin/master")) : M (option string)))
  ∧ ("origin/main" ∉ branches → "origin/master" ∉ branches →
     _get_default_compare_branch branches
     = (([], Return None) : M (option string)))
  ∧ (∀ branches', branches' ≡ₚ branches →
     (_get_default_compare_branch branches' : M (option string))
     = _get_default_compare_branch branches).
Proof.
  unfold _get_default_compare_branch. repeat split.
  - intros Hmain. rewrite (bool_decide_eq_true_2 _ Hmain). reflexivity.
  - intros Hmain Hmaster.
    rewrite (bool_decide_eq_false_2 _ Hmain), (bool_decide_eq_true_2 _ Hmaster).
    reflexivity.
  - intros Hmain Hmaster.
    rewrite (bool_decide_eq_false_2 _ Hmain), (bool_decide_eq_false_2 _ Hmaster).
    reflexivity.
  - intros branches' Hperm.
    rewrite (bool_decide_ext ("origin/main" ∈ branches') ("origin/main" ∈ branches))
      by (by rewrite Hperm).
    rewrite (bool_decide_ext ("origin/master" ∈ branches') ("origin/master" ∈ branches))
      by (by rewrite Hperm).
    reflexivity.
Qed.

Variables (w : world) (comparewith directory config : option string).

Local Abbreviation base := (run_base_directory w directory config).
Local Abbreviation cfg := (run_config w directory config).
Local Abbreviation encoding := (run_encoding w).

(** The two cases in which the run decodes as line 81 intends: no
    [encoding] attribute gives "utf8", and a [str] is used as it is. *)
Lemma run_encoding_cases :
  (stdout_encoding w = None → run_encoding w = PyStr "utf8")
  ∧ (∀ e, stdout_encoding w = Some (PyStr e) → run_encoding w = PyStr e).
Proof.
  unfold run_encoding. split; [intros ->|intros e ->]; reflexivity.
Qed.

(** C3, as the code has it. When [sys.stdout.encoding] is present and
    [None], the run does not fall back to UTF-8: it decodes with [None],
    every decoding raises [TypeError], and the run ends with an
    exception. *)
Theorem C3_unset_encoding_raises :
  stdout_encoding w = Some PyNone →
  run_encoding w = PyNone
  ∧ (∀ raw, ∃ msg, bytes_decode w raw (run_encoding w) = raise (TypeError msg))
  ∧ ∃ log e, __main w comparewith directory config = (log, Raised e).
Proof.
  intros Hnone.
  assert (Henc : run_encoding w = PyNone).
  { unfold run_encoding. rewrite Hnone. reflexivity. }
  split; [exact Henc|]. split.
  { intros raw. rewrite Henc. eexists. reflexivity. }
  rewrite main_stages. cbv zeta. rewrite Henc.
  assert (Hdiff : ∀ b, ∃ log e, diff_stage w base PyNone b = (log, Raised e)).
  { intros b. unfold diff_stage, _run, echo_bytes.
    destruct (check_output w _ base STDOUT) as [raw|rc out|errno strerror];
      destruct (stdout_bytes w); cbn; eauto. }
  destruct comparewith as [b|]; cbn [resolve_comparewith].
  - rewrite bind_mret. destruct (Hdiff b) as (log & e & ->).
    rewrite bind_Raised. eauto.
  - unfold _get_remote_branches, _run.
    destruct (check_output w _ base STDOUT) as [raw|rc out|errno strerror];
      cbn; eauto.
Qed.

(** C8. With [--compare-with b] the run lists no remote branches and
    issues no warning: its one command is the diff against [b...], with
    [b] as given. *)
Theorem C8_compare_with_is_verbatim (b : string) :
  let log := (__main w (Some b) directory config).1 in
  commands log = [(["git"; "diff"; "--name-only"; b +:+ "..."], base)]
  ∧ (∀ cwd, (git_branch_r, cwd) ∉ commands log)
  ∧ warnings log = [].
Proof.
  cbv zeta.
  assert (H : commands (__main w (Some b) directory config).1
              = [(git_diff b, base)]
              ∧ warnings (__main w (Some b) directory config).1 = []).
  { rewrite main_stages. cbv zeta. cbn [resolve_comparewith].
    rewrite bind_mret.
    destruct (diff_stage_cases w base encoding b)
      as [(raw & text & _ & _ & ->)|[(raw & e & _ & _ & _ & ->)
         |[(rc & out & _ & _ & ->)|[(rc & out & error & _ & _ & ->)
          |(errno & strerror & _ & ->)]]]].
    - rewrite bind_Return. cbn [fst].
      rewrite commands_app, warnings_app, check_stage_warnings.
      destruct (check_stage_terminal w base cfg b (Str.strip text))
        as (m & _ & _ & ->).
      done.
    - done.
    - done.
    - done.
    - done. }
  destruct H as [Hc Hw]. rewrite Hc, Hw.
  split; [reflexivity|]. split; [|reflexivity].
  intros cwd Hin. apply list_elem_of_singleton in Hin. discriminate Hin.
Qed.




End WholeRun.

(** ** Path normalisation *)
Section PathNormalisation.

Import posixpath.

Lemma split_nonempty sep s : Str.split sep s ≠ [].
Proof.
  destruct s as [|c s]; cbn; [done|].
  destruct (Ascii.eqb c sep); [done|]. destruct (Str.split sep s); done.
Qed.

(** Splitting at a separator that joins two strings. *)
Lemma split_app_sep a b :
  Str.split "/" (a +:+ String "/" b) = Str.split "/" a ++ Str.split "/" b.
Proof.
  induction a as [|c a IH]; [reflexivity|].
  change (String c a +:+ String "/" b) with (String c (a +:+ String "/" b)).
  cbn [Str.split]. rewrite IH. destruct (Ascii.eqb c "/"); [reflexivity|].
  destruct (Str.split "/" a) as [|x xs] eqn:E; [|reflexivity].
  by apply split_nonempty in E.
Qed.

Lemma isabs_app a b : a ≠ "" → isabs (a +:+ b) = isabs a.
Proof. destruct a as [|c a]; [done|]. intros _. reflexivity. Qed.

Lemma isabs_app_sep a b b' :
  isabs (a +:+ String "/" b) = isabs (a +:+ String "/" b').
Proof. destruct a as [|c a]; reflexivity. Qed.

Lemma name_not_abs x : is_name x → isabs x = false.
Proof.
  intros (Hne & _ & _ & Hsplit). destruct x as [|c x]; [done|].
  cbn [Str.split] in Hsplit. unfold isabs, sep. cbn [Str.startswith].
  rewrite andb_true_r, Ascii.eqb_sym.
  destruct (Ascii.eqb c "/"); [discriminate Hsplit|reflexivity].
Qed.

Lemma initial_slashes_zero p :
  (initial_slashes p =? 0)%nat = negb (isabs p).
Proof.
  unfold initial_slashes, isabs. destruct (Str.startswith sep p); [|reflexivity].
  destruct (_ && _); reflexivity.
Qed.

Lemma normpath_step_initial i j :
  (i =? 0)%nat = (j =? 0)%nat → normpath_step i = normpath_step j.
Proof. intros H. unfold normpath_step. rewrite H. reflexivity. Qed.

Lemma normpath_comps_kept p :
  normpath_comps (initial_slashes p) (Str.split "/" p) = kept p.
Proof.
  unfold kept, normpath_comps. f_equal. apply normpath_step_initial.
  rewrite initial_slashes_zero. destruct (isabs p); reflexivity.
Qed.

(** [normpath] is a function of the initial slashes and of the kept
    components. *)
Lemma normpath_kept p q :
  initial_slashes p = initial_slashes q → kept p = kept q →
  normpath p = normpath q.
Proof.
  assert (H : ∀ p, normpath p =
    let path' := Str.join sep (kept p) in
    let path' :=
      match initial_slashes p with
      | 0 => path'
      | 1 => sep +:+ path'
      | _ => sep +:+ sep +:+ path'
      end in
    if String.eqb path' "" then "." else path').
  { intros [|c s]; [reflexivity|].
    unfold normpath. rewrite normpath_comps_kept. reflexivity. }
  intros Hi Hk. rewrite !H, Hi, Hk. reflexivity.
Qed.

(** The loop of [normpath] over the components [l1 ++ l2]. *)
Lemma normpath_loop_app i l1 l2 acc :
  fold_left (normpath_step i) (l1 ++ l2) acc
  = fold_left (normpath_step i) l2 (fold_left (normpath_step i) l1 acc).
Proof. apply fold_left_app. Qed.

Lemma normpath_step_name i acc x :
  is_name x → normpath_step i acc x = acc ++ [x].
Proof.
  intros (H1 & H2 & H3 & _). unfold normpath_step.
  apply String.eqb_neq in H1, H2, H3. rewrite H1, H2, H3. reflexivity.
Qed.

Lemma normpath_step_name_dotdot i acc x :
  is_name x → normpath_step i (acc ++ [x]) ".." = acc.
Proof.
  intros (H1 & H2 & H3 & _). unfold normpath_step. cbn [String.eqb Ascii.eqb].
  cbn. rewrite last_snoc.
  apply String.eqb_neq in H3. rewrite H3.
  rewrite bool_decide_eq_false_2 by (by destruct acc).
  rewrite andb_false_r. cbn. apply removelast_last.
Qed.

Lemma normpath_loop_skip i l1 mid l2 :
  (∀ acc, fold_left (normpath_step i) mid acc = acc) →
  normpath_comps i (l1 ++ mid ++ l2) = normpath_comps i (l1 ++ l2).
Proof.
  intros H. unfold normpath_comps. rewrite !normpath_loop_app, H. reflexivity.
Qed.

(** A step that inserts the components [mid] after a separator keeps
    the normalised components. *)
Lemma kept_insert a mid b q :
  (∀ i acc, fold_left (normpath_step i) mid acc = acc) →
  Str.split "/" q = Str.split "/" a ++ mid ++ Str.split "/" b →
  isabs q = isabs (a +:+ String "/" b) →
  isabs (a +:+ String "/" b) = isabs q ∧ kept (a +:+ String "/" b) = kept q.
Proof.
  intros Hmid Hsplit Habs. split; [done|].
  unfold kept. rewrite Habs, Hsplit, split_app_sep.
  symmetry. apply normpath_loop_skip, Hmid.
Qed.

(** One step keeps the kind of the path and its normalised
    components. *)
Lemma redundant_step_kept p q :
  redundant_step p q → isabs p = isabs q ∧ kept p = kept q.
Proof.
  destruct 1 as [a b|a Ha|a b|a x b Hx|b Hb|x b Hx Hb].
  - change (a +:+ "/" +:+ b) with (a +:+ String "/" b).
    change (a +:+ "//" +:+ b) with (a +:+ String "/" ("" +:+ String "/" b)).
    apply (kept_insert a [""] b).
    + reflexivity.
    + rewrite !split_app_sep. reflexivity.
    + apply isabs_app_sep.
  - change (a +:+ "/") with (a +:+ String "/" "").
    split; [by rewrite isabs_app|].
    unfold kept. rewrite isabs_app, split_app_sep by done.
    unfold normpath_comps. rewrite normpath_loop_app. reflexivity.
  - change (a +:+ "/" +:+ b) with (a +:+ String "/" b).
    change (a +:+ "/./" +:+ b) with (a +:+ String "/" ("." +:+ String "/" b)).
    apply (kept_insert a ["."] b).
    + reflexivity.
    + rewrite !split_app_sep. reflexivity.
    + apply isabs_app_sep.
  - change (a +:+ "/" +:+ b) with (a +:+ String "/" b).
    change (a +:+ "/" +:+ x +:+ "/../" +:+ b)
      with (a +:+ String "/" (x +:+ String "/" (".." +:+ String "/" b))).
    apply (kept_insert a [x; ".."] b).
    + intros i acc. cbn [fold_left].
      rewrite (normpath_step_name _ _ _ Hx). apply normpath_step_name_dotdot, Hx.
    + rewrite !split_app_sep. destruct Hx as (_ & _ & _ & Hs). rewrite Hs.
      reflexivity.
    + apply isabs_app_sep.
  - change ("./" +:+ b) with ("." +:+ String "/" b).
    assert (Habs : isabs ("." +:+ String "/" b) = false) by reflexivity.
    split; [by rewrite Hb, Habs|].
    unfold kept. rewrite Hb, Habs, split_app_sep. reflexivity.
  - change (x +:+ "/../" +:+ b) with (x +:+ String "/" (".." +:+ String "/" b)).
    assert (Habs : isabs (x +:+ String "/" (".." +:+ String "/" b)) = false).
    { rewrite isabs_app by apply Hx. apply name_not_abs, Hx. }
    split; [by rewrite Hb, Habs|].
    unfold kept. rewrite Hb, Habs, !split_app_sep.
    pose proof Hx as (_ & _ & _ & Hs). rewrite Hs.
    change (Str.split "/" "..") with [".."].
    unfold normpath_comps.
    change ([x] ++ [".."] ++ Str.split "/" b) with ([x; ".."] ++ Str.split "/" b).
    rewrite normpath_loop_app. f_equal. cbn [fold_left].
    rewrite (normpath_step_name _ _ _ Hx).
    symmetry. apply (normpath_step_name_dotdot _ [] _ Hx).
Qed.

(** Paths that differ by redundant parts have the same kind and the
    same normalised components. *)
Lemma differ_by_redundancy_kept p q :
  differ_by_redundancy p q → isabs p = isabs q ∧ kept p = kept q.
Proof.
  induction 1 as [p|p q r Hstep _ [IH1 IH2]]; [done|].
  assert (isabs p = isabs q ∧ kept p = kept q) as [H1 H2].
  { destruct Hstep as [H|H]; apply redundant_step_kept in H as [? ?]; done. }
  split; congruence.
Qed.

(** C7, as the code has it. Two paths that differ only by redundant
    separators and [.] or [..] segments, and that [normpath] gives the
    same number of initial slashes (none, one, or the two that POSIX
    sets apart), normalise to the same string; so a changed file and a
    discovered fragment that differ in this way meet in
    [fragments & files]. *)
Theorem C7_normalisation_consistent :
  (∀ p q, differ_by_redundancy p q →
     initial_slashes p = initial_slashes q → normpath p = normpath q)
  ∧ (∀ base files_changed found line f,
       line ∈ Str.splitlines (Str.strip files_changed) → f ∈ found →
       differ_by_redundancy (join base [line]) f →
       initial_slashes (join base [line]) = initial_slashes f →
       normpath f ∈ fragment_path_set found ∩ changed_file_set base files_changed).
Proof.
  assert (H : ∀ p q, differ_by_redundancy p q →
    initial_slashes p = initial_slashes q → normpath p = normpath q).
  { intros p q Hpq Hi. apply normpath_kept; [exact Hi|].
    apply differ_by_redundancy_kept, Hpq. }
  split; [exact H|].
  intros base files_changed found line f Hline Hf Hdiff Hi.
  apply elem_of_intersection. split.
  - apply elem_of_list_to_set, list_elem_of_fmap. exists f. done.
  - apply elem_of_list_to_set, list_elem_of_fmap. exists line.
    split; [|exact Hline]. symmetry. apply H; done.
Qed.

End PathNormalisation.

(** ** The properties on concrete runs *)
Section Witnesses.

Import Examples.

Local Abbreviation event := (event unit unit).

Lemma C1_witness :
  ((__main w_not_found None None None).2 = SysExit 1
   ∧ terminal_echoes (__main w_not_found None None None).1 = [EvEcho MsgNotFound]
   ∧ found_report (__main w_not_found None None None).1 = [])
  ∧ ((__main w_found None None None).2 = SysExit 0
     ∧ terminal_echoes (__main w_found None None None).1 = [EvEcho MsgFound]
     ∧ NoDup (found_report (__main w_found None None None).1)
     ∧ ∀ path, path ∈ found_report (__main w_found None None None).1
         ↔ path ∈ fragment_path_set
                    ["/repo/newsfragments/123.feature"; "/repo/newsfragments/7.bugfix"]
                  ∩ changed_file_set "/repo"
                      ("src/feature.py" +:+ nl +:+ "newsfragments/123.feature")).
Proof.
  split.
  - apply (C1_intersection_decides w_not_found None None None "origin/main"
             [EvRun git_branch_r "/repo"] eq_refl
             (utf8_bytes ("src/feature.py" +:+ nl)) ("src/feature.py" +:+ nl)).
    + reflexivity.
    + reflexivity.
    + vm_compute. discriminate.
    + apply (bool_decide_eq_false_1 _). vm_compute. reflexivity.
    + apply (bool_decide_eq_true_1 _). vm_compute. reflexivity.
  - apply (C1_intersection_decides w_found None None None "origin/main"
             [EvRun git_branch_r "/repo"] eq_refl
             (utf8_bytes ("src/feature.py" +:+ nl +:+ "newsfragments/123.feature" +:+ nl))
             ("src/feature.py" +:+ nl +:+ "newsfragments/123.feature" +:+ nl)).
    + reflexivity.
    + reflexivity.
    + vm_compute. discriminate.
    + apply (bool_decide_eq_false_1 _). vm_compute. reflexivity.
    + apply (bool_decide_eq_false_1 _). vm_compute. reflexivity.
Defined.

Lemma C2_witness :
  (_get_default_compare_branch ["origin/master"; "origin/topic"; "origin/main"]
   = (([], Return (Some "origin/main")) : M unit unit (option string)))
  ∧ (_get_default_compare_branch ["origin/master"; "origin/topic"]
     = (([EvWarn DeprecationWarning origin_master_deprecated],
         Return (Some "origin/master")) : M unit unit (option string)))
  ∧ (_get_default_compare_branch ["origin/topic"; "origin/mainline"]
     = (([], Return None) : M unit unit (option string))).
Proof.
  split; [|split].
  - apply (proj1 (C2_default_branch_priority
                      ["origin/master"; "origin/topic"; "origin/main"])).
    apply (bool_decide_eq_true_1 _). vm_compute. reflexivity.
  - apply (proj1 (proj2 (C2_default_branch_priority
                             ["origin/master"; "origin/topic"]))).
    + apply (bool_decide_eq_false_1 _). vm_compute. reflexivity.
    + apply (bool_decide_eq_true_1 _). vm_compute. reflexivity.
  - apply (proj1 (proj2 (proj2 (C2_default_branch_priority
                                    ["origin/topic"; "origin/mainline"])))).
    + apply (bool_decide_eq_false_1 _). vm_compute. reflexivity.
    + apply (bool_decide_eq_false_1 _). vm_compute. reflexivity.
Defined.

Lemma C3_witness :
  run_encoding w_piped = PyNone
  ∧ (∀ raw, ∃ msg, bytes_decode w_piped raw (run_encoding w_piped)
                   = (raise (TypeError msg) : M unit unit string))
  ∧ ∃ (log : list event) e, __main w_piped None None None = (log, Raised e).
Proof. apply (C3_unset_encoding_raises w_piped None None None). reflexivity. Defined.

Lemma C4_witness :
  __main w_news None None None
  = ([EvRun git_branch_r "/repo"] ++ [EvRun (git_diff "origin/main") "/repo"]
       ++ listing (changed_file_set "/repo" ("NEWS.rst" +:+ nl +:+ "src/feature.py"))
       ++ [EvEcho MsgSkipped],
     SysExit 0)
  ∧ discovery_invoked (__main w_news None None None).1 = false.
Proof.
  apply (C4_news_file_skips w_news None None None "origin/main"
           [EvRun git_branch_r "/repo"] eq_refl
           (utf8_bytes ("NEWS.rst" +:+ nl +:+ "src/feature.py" +:+ nl))
           ("NEWS.rst" +:+ nl +:+ "src/feature.py" +:+ nl)).
  - reflexivity.
  - reflexivity.
  - vm_compute. discriminate.
  - apply (bool_decide_eq_true_1 _). vm_compute. reflexivity.
Defined.

Lemma C5_witness :
  __main w_no_diff None None None
  = ([EvRun git_branch_r "/repo"]
       ++ [EvRun (git_diff "origin/main") "/repo"; EvEcho (MsgNoDiffs "origin/main")],
     SysExit 0)
  ∧ discovery_invoked (__main w_no_diff None None None).1 = false.
Proof.
  apply (C5_empty_diff_exits_0 w_no_diff None None None "origin/main"
           [EvRun git_branch_r "/repo"] eq_refl (utf8_bytes nl) nl);
    reflexivity.
Defined.




Lemma C10_witness :
  fragment_search w_empty_directory "/repo" (config1 (Some ""))
  = ("/repo", Some "newsfragments")
  ∧ discoveries (__main w_empty_directory None None None).1
    = [EvFindFragments "/repo" tt (Some "newsfragments") tt].
Proof.
  apply (C10_empty_directory_is_absent w_empty_directory None None None
           "origin/main" [EvRun git_branch_r "/repo"] eq_refl
           (utf8_bytes ("src/feature.py" +:+ nl +:+ "newsfragments/123.feature" +:+ nl))
           ("src/feature.py" +:+ nl +:+ "newsfragments/123.feature" +:+ nl)).
  - reflexivity.
  - reflexivity.
  - reflexivity.
  - vm_compute. discriminate.
  - apply (bool_decide_eq_false_1 _). vm_compute. reflexivity.
Defined.

Lemma C7_witness :
  posixpath.normpath "/repo//newsfragments/./tmp/../123.feature"
  = posixpath.normpath "/repo/newsfragments/123.feature".
Proof.
  apply (proj1 C7_normalisation_consistent).
  - apply rtc_l with "/repo//newsfragments/./123.feature".
    { right. apply (step_dotdot "/repo//newsfragments/." "tmp" "123.feature").
      repeat split; discriminate. }
    apply rtc_l with "/repo//newsfragments/123.feature".
    { right. apply (step_dot "/repo//newsfragments" "123.feature"). }
    apply rtc_once. right.
    apply (step_separator "/repo" "newsfragments/123.feature").
  - reflexivity.
Defined.

(** C7, where it fails as stated: a leading double slash is a redundant
    separator that [normpath] keeps, so the changed file
    [/repo/newsfragments/123.feature] and the discovered fragment
    [//repo/newsfragments/123.feature] do not meet and the run reports
    that no fragment was found. *)
Lemma C7_double_slash_counterexample :
  differ_by_redundancy "/repo/newsfragments/123.feature"
    "//repo/newsfragments/123.feature"
  ∧ posixpath.normpath "/repo/newsfragments/123.feature"
    ≠ posixpath.normpath "//repo/newsfragments/123.feature"
  ∧ __main w_double_slash None None None
    = ([EvRun git_branch_r "/repo"; EvRun (git_diff "origin/main") "/repo";
        EvEcho MsgLooking; EvEcho MsgRule;
        EvEcho (MsgItem 1 "/repo/src/feature.py");
        EvEcho (MsgItem 2 "/repo/newsfragments/123.feature");
        EvEcho MsgRule;
        EvFindFragments "//repo/newsfragments" tt None tt;
        EvEcho MsgNotFound],
       SysExit 1).
Proof.
  split; [|split].
  - apply rtc_once. left. apply (step_separator "" "repo/newsfragments/123.feature").
  - vm_compute. discriminate.
  - vm_compute. reflexivity.
Qed.


(** The failing run of C3: with [sys.stdout.encoding = None] the first
    decoding raises [TypeError]. *)
Lemma piped_run_raises_TypeError :
  __main w_piped None None None
  = ([EvRun git_branch_r "/repo"],
     Raised (TypeError "decode() argument 'encoding' must be str, not None")).
Proof. vm_compute. reflexivity. Qed.

End Witnesses.

(** * More properties of the command *)

(** ** Stripped text *)
Section Stripping.

Lemma rstrip_cons c s :
  Str.rstrip (String c s)
  = match Str.rstrip s with
    | EmptyString => if Str.isspace c then EmptyString else String c EmptyString
    | r => String c r
    end.
Proof. reflexivity. Qed.

Lemma rstrip_idempotent s : Str.rstrip (Str.rstrip s) = Str.rstrip s.
Proof.
  induction s as [|c s IH]; [reflexivity|].
  rewrite rstrip_cons. destruct (Str.rstrip s) as [|d r] eqn:E.
  - destruct (Str.isspace c) eqn:Hc; [reflexivity|].
    rewrite rstrip_cons. cbn [Str.rstrip]. rewrite Hc. reflexivity.
  - rewrite rstrip_cons, IH. reflexivity.
Qed.

Lemma lstrip_head s :
  match Str.lstrip s with
  | EmptyString => True
  | String c _ => Str.isspace c = false
  end.
Proof.
  induction s as [|c s IH]; [exact I|].
  cbn [Str.lstrip]. destruct (Str.isspace c) eqn:Hc; [exact IH|exact Hc].
Qed.

Lemma rstrip_head c s :
  Str.isspace c = false → ∃ r, Str.rstrip (String c s) = String c r.
Proof.
  intros Hc. rewrite rstrip_cons. destruct (Str.rstrip s) as [|d r].
  - rewrite Hc. eauto.
  - eauto.
Qed.

(** Stripping twice is stripping once. *)
Lemma strip_idempotent s : Str.strip (Str.strip s) = Str.strip s.
Proof.
  unfold Str.strip. pose proof (lstrip_head s) as H.
  destruct (Str.lstrip s) as [|c t]; [reflexivity|].
  destruct (rstrip_head c t H) as [r Hr].
  rewrite Hr. cbn [Str.lstrip]. rewrite H, <- Hr. apply rstrip_idempotent.
Qed.

End Stripping.

Section Resolution.

Context {sections_t types_t content_t : Type}.
Local Abbreviation world := (world sections_t types_t content_t).
Local Abbreviation M := (M sections_t types_t).
Local Abbreviation event := (event sections_t types_t).

(** The listing of the remote branches, when it comes back decoded. *)
Lemma get_remote_branches_decoded (w : world) base encoding raw text :
  check_output w git_branch_r base STDOUT = Completed raw →
  bytes_decode w raw encoding = mret text →
  _get_remote_branches w base encoding
  = ([EvRun git_branch_r base], Return (Str.strip <$> Str.splitlines text)).
Proof.
  unfold _get_remote_branches, _run, git_branch_r. intros -> Hdec.
  cbn. rewrite Hdec. reflexivity.
Qed.

(** The ways the listing of the remote branches ends. *)
Lemma get_remote_branches_cases (w : world) base encoding :
  (∃ e, command_failure git_branch_r (check_output w git_branch_r base STDOUT)
        = Some e
     ∧ _get_remote_branches w base encoding = ([EvRun git_branch_r base], Raised e))
  ∨ (∃ raw e, check_output w git_branch_r base STDOUT = Completed raw
       ∧ bytes_decode w raw encoding = raise e ∧ decode_failure e
       ∧ _get_remote_branches w base encoding = ([EvRun git_branch_r base], Raised e))
  ∨ (∃ raw text, check_output w git_branch_r base STDOUT = Completed raw
       ∧ bytes_decode w raw encoding = mret text
       ∧ _get_remote_branches w base encoding
         = ([EvRun git_branch_r base], Return (Str.strip <$> Str.splitlines text))).
Proof.
  destruct (check_output w git_branch_r base STDOUT)
    as [raw|rc out|errno strerror] eqn:Hrun.
  - destruct (bytes_decode_cases w raw encoding) as [[text Hdec]|[e [Hdec He]]].
    + right. right. exists raw, text. split; [reflexivity|]. split; [exact Hdec|].
      apply (get_remote_branches_decoded _ _ _ raw); done.
    + right. left. exists raw, e. split; [reflexivity|]. split; [exact Hdec|].
      split; [exact He|].
      unfold _get_remote_branches, _run. fold git_branch_r. rewrite Hrun.
      cbn. rewrite Hdec. reflexivity.
  - left. eexists. split; [reflexivity|].
    unfold _get_remote_branches, _run. fold git_branch_r. rewrite Hrun.
    reflexivity.
  - left. eexists. split; [reflexivity|].
    unfold _get_remote_branches, _run. fold git_branch_r. rewrite Hrun.
    reflexivity.
Qed.

(** X1. Every name [_get_remote_branches] returns is stripped, and the
    command is all its log shows. *)
Theorem remote_branches_are_stripped (w : world) base encoding log branches :
  _get_remote_branches w base encoding = (log, Return branches) →
  log = [EvRun git_branch_r base] ∧ Forall (λ b, Str.strip b = b) branches.
Proof.
  destruct (get_remote_branches_cases w base encoding)
    as [(e & _ & ->)|[(raw & e & _ & _ & _ & ->)|(raw & text & Hrun & Hdec & ->)]];
    [discriminate|discriminate|].
  intros [= <- <-]. split; [reflexivity|].
  apply Forall_fmap, Forall_true. intros line. apply strip_idempotent.
Qed.

(** The ways the comparison branch is resolved. *)
Lemma resolution_cases (w : world) base encoding comparewith :
  (∃ b, comparewith = Some b
     ∧ resolve_comparewith w base encoding comparewith = ([], Return (Some b)))
  ∨ (comparewith = None ∧ ∃ e,
       command_failure git_branch_r (check_output w git_branch_r base STDOUT)
       = Some e
       ∧ resolve_comparewith w base encoding comparewith
         = ([EvRun git_branch_r base], Raised e))
  ∨ (comparewith = None ∧ ∃ raw e,
       check_output w git_branch_r base STDOUT = Completed raw
       ∧ bytes_decode w raw encoding = raise e ∧ decode_failure e
       ∧ resolve_comparewith w base encoding comparewith
         = ([EvRun git_branch_r base], Raised e))
  ∨ (comparewith = None ∧ ∃ raw text,
       check_output w git_branch_r base STDOUT = Completed raw
       ∧ bytes_decode w raw encoding = mret text
       ∧ (("origin/main" ∈ (Str.strip <$> Str.splitlines text)
           ∧ resolve_comparewith w base encoding comparewith
             = ([EvRun git_branch_r base], Return (Some "origin/main")))
          ∨ (("origin/main" ∉ (Str.strip <$> Str.splitlines text))
             ∧ "origin/master" ∈ (Str.strip <$> Str.splitlines text)
             ∧ resolve_comparewith w base encoding comparewith
               = ([EvRun git_branch_r base;
                   EvWarn DeprecationWarning origin_master_deprecated],
                  Return (Some "origin/master")))
          ∨ (("origin/main" ∉ (Str.strip <$> Str.splitlines text))
             ∧ ("origin/master" ∉ (Str.strip <$> Str.splitlines text))
             ∧ resolve_comparewith w base encoding comparewith
               = ([EvRun git_branch_r base], Return None)))).
Proof.
  destruct comparewith as [b|]; [left; eauto|right].
  unfold resolve_comparewith.
  destruct (get_remote_branches_cases w base encoding)
    as [(e & Hrun & ->)|[(raw & e & Hrun & Hdec & He & ->)
                        |(raw & text & Hrun & Hdec & ->)]].
  - left. split; [reflexivity|]. exists e. done.
  - right. left. split; [reflexivity|]. exists raw, e. done.
  - right. right. split; [reflexivity|]. exists raw, text.
    split; [exact Hrun|]. split; [exact Hdec|].
    rewrite bind_Return. unfold _get_default_compare_branch.
    repeat case_bool_decide; cbn; [left|right; left|right; right]; done.
Qed.

Variables (w : world) (comparewith directory config : option string).

Local Abbreviation base := (run_base_directory w directory config).
Local Abbreviation cfg := (run_config w directory config).
Local Abbreviation encoding := (run_encoding w).

(** The ways a run goes on once the comparison branch is [b]. *)
Lemma after_resolution_cases b pre :
  resolve_comparewith w base encoding comparewith = (pre, Return (Some b)) →
  (∃ rc out, check_output w (git_diff b) base STDOUT = Failed rc out
     ∧ __main w comparewith directory config
       = (pre ++ [EvRun (git_diff b) base; EvEcho MsgGitFailed; EvEcho (MsgOutput out)],
          Raised (CalledProcessError rc (git_diff b) out)))
  ∨ (∃ error,
       __main w comparewith directory config
       = (pre ++ [EvRun (git_diff b) base; EvEcho MsgGitFailed],
          Raised (TypeError error)))
  ∨ (∃ errno strerror,
       __main w comparewith directory config
       = (pre ++ [EvRun (git_diff b) base], Raised (OSError errno strerror)))
  ∨ (∃ raw e, check_output w (git_diff b) base STDOUT = Completed raw
       ∧ bytes_decode w raw encoding = raise e ∧ decode_failure e
       ∧ __main w comparewith directory config
         = (pre ++ [EvRun (git_diff b) base], Raised e))
  ∨ (∃ raw text, check_output w (git_diff b) base STDOUT = Completed raw
       ∧ bytes_decode w raw encoding = mret text
       ∧ __main w comparewith directory config
         = (pre ++ [EvRun (git_diff b) base]
              ++ (check_stage w base cfg b (Str.strip text)).1,
            (check_stage w base cfg b (Str.strip text)).2)).
Proof.
  intros Hres. rewrite (main_after_resolution _ _ _ _ _ _ Hres).
  destruct (diff_stage_cases w base encoding b)
    as [(raw & text & Hrun & Hdec & ->)|[(raw & e & Hrun & Hdec & He & ->)
       |[(rc & out & Hrun & _ & ->)|[(rc & out & error & _ & _ & ->)
        |(errno & strerror & _ & ->)]]]].
  - right. right. right. right. exists raw, text. rewrite bind_Return. done.
  - right. right. right. left. exists raw, e. done.
  - left. exists rc, out. done.
  - right. left. exists error. done.
  - right. right. left. exists errno, strerror. done.
Qed.

(** A run whose resolution does not give a branch ends there. *)
Lemma main_resolution_ends pre :
  (∀ e, resolve_comparewith w base encoding comparewith = (pre, Raised e) →
        __main w comparewith directory config = (pre, Raised e))
  ∧ (resolve_comparewith w base encoding comparewith = (pre, Return None) →
     __main w comparewith directory config
     = (pre ++ [EvEcho MsgNoDefaultBranch], SysExit 1)).
Proof.
  split.
  - intros e Hres. rewrite main_stages. cbv zeta. rewrite Hres. reflexivity.
  - intros Hres. rewrite main_stages. cbv zeta. rewrite Hres, bind_Return.
    reflexivity.
Qed.

(** The commands and warnings of a run that reaches the diff. *)
Lemma after_resolution_commands b pre :
  resolve_comparewith w base encoding comparewith = (pre, Return (Some b)) →
  commands (__main w comparewith directory config).1
  = commands pre ++ [(git_diff b, base)]
  ∧ warnings (__main w comparewith directory config).1 = warnings pre.
Proof.
  intros Hres.
  destruct (after_resolution_cases b pre Hres)
    as [(rc & out & _ & ->)|[(error & ->)|[(errno & strerror & ->)
       |[(raw & e & _ & _ & _ & ->)|(raw & text & _ & _ & ->)]]]];
    cbn [fst]; rewrite ?commands_app, ?warnings_app.
  - split; [reflexivity|]. cbn. apply app_nil_r.
  - split; [reflexivity|]. cbn. apply app_nil_r.
  - split; [reflexivity|]. cbn. apply app_nil_r.
  - split; [reflexivity|]. cbn. apply app_nil_r.
  - rewrite check_stage_warnings.
    destruct (check_stage_terminal w base cfg b (Str.strip text)) as (m & _ & _ & ->).
    split; [reflexivity|]. cbn. apply app_nil_r.
Qed.

End Resolution.

(** ** More on every run *)
Section MoreRuns.

Context {sections_t types_t content_t : Type}.
Local Abbreviation world := (world sections_t types_t content_t).
Local Abbreviation config_t := (config_t sections_t types_t).
Local Abbreviation M := (M sections_t types_t).
Local Abbreviation event := (event sections_t types_t).

Variables (w : world) (comparewith directory config : option string).

Local Abbreviation base := (run_base_directory w directory config).
Local Abbreviation cfg := (run_config w directory config).
Local Abbreviation encoding := (run_encoding w).

(** X2. Without [--compare-with], when the listing of the remote
    branches names neither "origin/main" nor "origin/master" once its
    lines are stripped, the run echoes that it could not detect the
    default branch and exits with status 1; no diff is run. *)
Theorem no_default_branch_exits_1 raw text :
  check_output w git_branch_r base STDOUT = Completed raw →
  bytes_decode w raw encoding = mret text →
  "origin/main" ∉ (Str.strip <$> Str.splitlines text) →
  "origin/master" ∉ (Str.strip <$> Str.splitlines text) →
  __main w None directory config
  = ([EvRun git_branch_r base; EvEcho MsgNoDefaultBranch], SysExit 1).
Proof.
  intros Hrun Hdec Hmain Hmaster.
  apply (proj2 (main_resolution_ends w None directory config [EvRun git_branch_r base])).
  unfold resolve_comparewith.
  rewrite (get_remote_branches_decoded _ _ _ _ _ Hrun Hdec), bind_Return.
  unfold _get_default_compare_branch.
  rewrite (bool_decide_eq_false_2 _ Hmain), (bool_decide_eq_false_2 _ Hmaster).
  reflexivity.
Qed.

(** X3. Without [--compare-with], a line of the listing that is
    "origin/main" once stripped makes the run go on as with
    [--compare-with origin/main], after the listing; when no line is,
    a line that is "origin/master" once stripped makes it go on as with
    [--compare-with origin/master], after the listing and the
    deprecation warning. *)
Theorem default_branch_run_is_explicit_run raw text :
  check_output w git_branch_r base STDOUT = Completed raw →
  bytes_decode w raw encoding = mret text →
  ((∃ line, line ∈ Str.splitlines text ∧ Str.strip line = "origin/main") →
     __main w None directory config
     = ([EvRun git_branch_r base]
          ++ (__main w (Some "origin/main") directory config).1,
        (__main w (Some "origin/main") directory config).2))
  ∧ ((∀ line, line ∈ Str.splitlines text → Str.strip line ≠ "origin/main") →
     (∃ line, line ∈ Str.splitlines text ∧ Str.strip line = "origin/master") →
     __main w None directory config
     = ([EvRun git_branch_r base;
         EvWarn DeprecationWarning origin_master_deprecated]
          ++ (__main w (Some "origin/master") directory config).1,
        (__main w (Some "origin/master") directory config).2)).
Proof.
  intros Hrun Hdec.
  assert (Hexplicit : ∀ b,
    __main w (Some b) directory config
    = ((diff_stage w base encoding b ≫= check_stage w base cfg b).1,
       (diff_stage w base encoding b ≫= check_stage w base cfg b).2)).
  { intros b. apply (main_after_resolution w (Some b) directory config b []).
    reflexivity. }
  assert (Hres : ∀ l' r',
    _get_default_compare_branch (Str.strip <$> Str.splitlines text) = (l', r') →
    resolve_comparewith w base encoding None
    = (EvRun git_branch_r base :: l', r')).
  { intros l' r' E. unfold resolve_comparewith.
    rewrite (get_remote_branches_decoded _ _ _ _ _ Hrun Hdec), bind_Return, E.
    reflexivity. }
  split.
  - intros (line & Hline & Hstrip).
    assert (Hin : "origin/main" ∈ (Str.strip <$> Str.splitlines text)).
    { apply list_elem_of_fmap. exists line. done. }
    rewrite (main_after_resolution w None directory config "origin/main"
               [EvRun git_branch_r base]), Hexplicit; [reflexivity|].
    apply Hres. unfold _get_default_compare_branch.
    rewrite (bool_decide_eq_true_2 _ Hin). reflexivity.
  - intros Hnone (line & Hline & Hstrip).
    assert (Hnotin : "origin/main" ∉ (Str.strip <$> Str.splitlines text)).
    { intros (l & Hl & Hlin)%list_elem_of_fmap. by apply (Hnone l). }
    assert (Hin : "origin/master" ∈ (Str.strip <$> Str.splitlines text)).
    { apply list_elem_of_fmap. exists line. done. }
    rewrite (main_after_resolution w None directory config "origin/master"
               [EvRun git_branch_r base;
                EvWarn DeprecationWarning origin_master_deprecated]), Hexplicit;
      [reflexivity|].
    apply Hres. unfold _get_default_compare_branch.
    rewrite (bool_decide_eq_false_2 _ Hnotin), (bool_decide_eq_true_2 _ Hin).
    reflexivity.
Qed.

(** What the last stage shows of discovery, with the message it ends
    on. *)
Lemma check_stage_discoveries b files_changed :
  (discoveries (check_stage w base cfg b files_changed).1 = []
   ∧ (terminal_echoes (check_stage w base cfg b files_changed).1
        = [EvEcho (MsgNoDiffs b)]
      ∨ terminal_echoes (check_stage w base cfg b files_changed).1
        = [EvEcho MsgSkipped]))
  ∨ (discoveries (check_stage w base cfg b files_changed).1
     = [EvFindFragments (fragment_search w base cfg).1 (config_sections cfg)
          (fragment_search w base cfg).2 (config_types cfg)]
     ∧ (terminal_echoes (check_stage w base cfg b files_changed).1
          = [EvEcho MsgNotFound]
        ∨ terminal_echoes (check_stage w base cfg b files_changed).1
          = [EvEcho MsgFound])).
Proof.
  rewrite check_stage_eq.
  destruct (String.eqb files_changed ""); [left; split; [done|by left]|].
  cbv zeta. case_bool_decide; cbn [fst].
  { left. rewrite discoveries_app, terminal_echoes_app.
    rewrite (discoveries_quiet _ (listing_no_discovery _)).
    rewrite (terminal_echoes_quiet _ (listing_no_terminal _)).
    split; [done|by right]. }
  right.
  rewrite !discoveries_app, !terminal_echoes_app.
  rewrite (discoveries_quiet _ (listing_no_discovery _)).
  rewrite (terminal_echoes_quiet _ (listing_no_terminal _)).
  case_bool_decide.
  - split; [done|by left].
  - split; [|right].
    + cbn. change (List.filter is_find_fragments ?l) with (discoveries l).
      rewrite (discoveries_quiet _ (numbered_no_discovery _)). reflexivity.
    + cbn. change (List.filter terminal_event ?l) with (terminal_echoes l).
      rewrite (terminal_echoes_quiet _ (numbered_no_terminal _)). reflexivity.
Qed.

(** The log of a resolution shows no echo, no discovery and no terminal
    message. *)
Lemma resolution_log_quiet base' enc cw pre r :
  resolve_comparewith w base' enc cw = (pre, r) →
  discoveries pre = [] ∧ terminal_echoes pre = []
  ∧ List.filter is_echo pre = [] ∧ items pre = [].
Proof.
  intros H. apply resolve_comparewith_log in H as [H _].
  induction H as [|e pre He _ (IH1 & IH2 & IH3 & IH4)]; [done|].
  destruct He as [->|[msg ->]]; cbn; done.
Qed.

(** Every run: discovery is called at most once, with the configured
    search, and exactly when the run ends on "not found" or "Found:". *)
Lemma main_discovery_cases :
  (discoveries (__main w comparewith directory config).1 = []
   ∧ terminal_echoes (__main w comparewith directory config).1
     ≠ [EvEcho MsgNotFound]
   ∧ terminal_echoes (__main w comparewith directory config).1
     ≠ [EvEcho MsgFound])
  ∨ (discoveries (__main w comparewith directory config).1
     = [EvFindFragments (fragment_search w base cfg).1 (config_sections cfg)
          (fragment_search w base cfg).2 (config_types cfg)]
     ∧ (terminal_echoes (__main w comparewith directory config).1
          = [EvEcho MsgNotFound]
        ∨ terminal_echoes (__main w comparewith directory config).1
          = [EvEcho MsgFound])).
Proof.
  destruct (resolve_comparewith w base encoding comparewith) as [pre r] eqn:Hres.
  destruct (resolution_log_quiet _ _ _ _ _ Hres) as (Hd & Ht & _ & _).
  destruct r as [[b|]|code|e].
  - destruct (after_resolution_cases w comparewith directory config b pre Hres)
      as [(rc & out & _ & ->)|[(error & ->)|[(errno & strerror & ->)
         |[(raw & e & _ & _ & _ & ->)|(raw & text & _ & _ & ->)]]]];
      cbn [fst].
    + left. rewrite discoveries_app, terminal_echoes_app, Hd, Ht. done.
    + left. rewrite discoveries_app, terminal_echoes_app, Hd, Ht. done.
    + left. rewrite discoveries_app, terminal_echoes_app, Hd, Ht. done.
    + left. rewrite discoveries_app, terminal_echoes_app, Hd, Ht. done.
    + rewrite !discoveries_app, !terminal_echoes_app, Hd, Ht. cbn [app].
      change (discoveries [EvRun (git_diff b) base]) with (@nil event).
      change (terminal_echoes [EvRun (git_diff b) base]) with (@nil event).
      cbn [app].
      destruct (check_stage_discoveries b (Str.strip text))
        as [[-> [->| ->]]|[-> [->| ->]]];
        [left; done|left; done|right; split; [done|by left]
        |right; split; [done|by right]].
  - rewrite (proj2 (main_resolution_ends w comparewith directory config pre) Hres).
    cbn [fst]. left. rewrite discoveries_app, terminal_echoes_app, Hd, Ht. done.
  - exfalso. destruct (resolve_comparewith_cases w base encoding comparewith)
      as [(p & o & H & _)|(_ & e & H & _)]; congruence.
  - rewrite (proj1 (main_resolution_ends w comparewith directory config pre) e Hres).
    cbn [fst]. left. rewrite Hd, Ht. done.
Qed.

(** X4. In every run, [find_fragments] is called at most once, and it
    is called exactly in the runs that end on "not found" or on
    "Found:". *)
Theorem discovery_only_before_verdict :
  (length (discoveries (__main w comparewith directory config).1) ≤ 1)%nat
  ∧ (discovery_invoked (__main w comparewith directory config).1 = true
     ↔ terminal_echoes (__main w comparewith directory config).1
         = [EvEcho MsgNotFound]
       ∨ terminal_echoes (__main w comparewith directory config).1
         = [EvEcho MsgFound]).
Proof.
  assert (Hinv : ∀ log : list event,
    discovery_invoked log = true ↔ discoveries log ≠ []).
  { intros log. unfold discovery_invoked, discoveries.
    induction log as [|e log IH]; cbn; [done|].
    destruct (is_find_fragments e); cbn; [done|exact IH]. }
  rewrite Hinv.
  destruct main_discovery_cases as [(-> & H1 & H2)|[-> H]].
  - split; [cbn; lia|]. split; [done|]. intros [?|?]; done.
  - split; [cbn; lia|]. split; [done|done].
Qed.

(** X5. Without [--compare-with] a run lists the remote branches and
    then diffs against "origin/main" or "origin/master" or not at all:
    no other baseline is ever chosen, both commands run in the base
    directory, and the deprecation warning comes exactly with
    "origin/master". *)
Theorem default_baseline_is_main_or_master :
  (commands (__main w None directory config).1 = [(git_branch_r, base)]
   ∧ warnings (__main w None directory config).1 = [])
  ∨ (commands (__main w None directory config).1
     = [(git_branch_r, base); (git_diff "origin/main", base)]
     ∧ warnings (__main w None directory config).1 = [])
  ∨ (commands (__main w None directory config).1
     = [(git_branch_r, base); (git_diff "origin/master", base)]
     ∧ warnings (__main w None directory config).1 = [origin_master_deprecated]).
Proof.
  destruct (resolution_cases w base encoding None)
    as [(b & [=] & _)|[(_ & e & _ & Hres)|[(_ & raw & e & _ & _ & _ & Hres)
       |(_ & raw & text & _ & _ & [[_ Hres]|[(_ & _ & Hres)|(_ & _ & Hres)]])]]].
  - left. rewrite (proj1 (main_resolution_ends w None directory config _) _ Hres).
    done.
  - left. rewrite (proj1 (main_resolution_ends w None directory config _) _ Hres).
    done.
  - right. left.
    destruct (after_resolution_commands w None directory config _ _ Hres) as [-> ->].
    done.
  - right. right.
    destruct (after_resolution_commands w None directory config _ _ Hres) as [-> ->].
    done.
  - left. rewrite (proj2 (main_resolution_ends w None directory config _) Hres).
    done.
Qed.

(** X6. A run that ends with [CalledProcessError] reports the command
    it ran last, in the base directory, with the return code and the
    output that command gave. *)
Theorem process_error_is_of_last_command log rc cmd out :
  __main w comparewith directory config
  = (log, Raised (CalledProcessError rc cmd out)) →
  last (commands log) = Some (cmd, base)
  ∧ check_output w cmd base STDOUT = Failed rc out.
Proof.
  assert (Hafter : ∀ b pre,
    resolve_comparewith w base encoding comparewith = (pre, Return (Some b)) →
    __main w comparewith directory config
    = (log, Raised (CalledProcessError rc cmd out)) →
    last (commands log) = Some (cmd, base)
    ∧ check_output w cmd base STDOUT = Failed rc out).
  { intros b pre Hres.
    destruct (after_resolution_cases w comparewith directory config b pre Hres)
      as [(rc' & out' & Hrun & ->)|[(error & ->)|[(errno & strerror & ->)
         |[(raw & e & _ & _ & He & ->)|(raw & text & _ & _ & ->)]]]].
    - intros [= <- <- <- <-]. split; [|exact Hrun].
      rewrite commands_app. cbn. apply last_snoc.
    - discriminate.
    - discriminate.
    - intros [= _ ->]. destruct He.
    - destruct (check_stage_terminal w base cfg b (Str.strip text))
        as (m & -> & _). discriminate. }
  destruct (resolution_cases w base encoding comparewith)
    as [(b & _ & Hres)|[(_ & e & Hrun & Hres)
       |[(_ & raw & e & _ & _ & He & Hres)
        |(_ & raw & text & _ & _ & [[_ Hres]|[(_ & _ & Hres)|(_ & _ & Hres)]])]]].
  - apply (Hafter _ _ Hres).
  - rewrite (proj1 (main_resolution_ends w comparewith directory config _) _ Hres).
    intros [= <- ->]. cbn [commands last].
    destruct (check_output w git_branch_r base STDOUT)
      as [raw|rc' out'|errno strerror] eqn:Hco; cbn in Hrun;
      [discriminate| |discriminate].
    injection Hrun as <- <- <-. split; [reflexivity|exact Hco].
  - rewrite (proj1 (main_resolution_ends w comparewith directory config _) _ Hres).
    intros [= _ ->]. destruct He.
  - apply (Hafter _ _ Hres).
  - apply (Hafter _ _ Hres).
  - rewrite (proj2 (main_resolution_ends w comparewith directory config _) Hres).
    discriminate.
Qed.

End MoreRuns.

(** ** More on runs that reach the diff *)
Section MoreAfterResolution.

Context {sections_t types_t content_t : Type}.
Local Abbreviation world := (world sections_t types_t content_t).
Local Abbreviation event := (event sections_t types_t).

Variables (w : world) (comparewith directory config : option string).
Variables (b : string) (pre : list event).

Local Abbreviation base := (run_base_directory w directory config).
Local Abbreviation cfg := (run_config w directory config).
Local Abbreviation encoding := (run_encoding w).

Hypothesis resolved :
  resolve_comparewith w base encoding comparewith = (pre, Return (Some b)).

(** X7. When the diff command succeeds and its output cannot be
    decoded, the run ends with the decoding error right after the
    command: the handler of the failed command is not entered and
    nothing at all is echoed. *)
Theorem undecodable_diff_raises_silently raw e :
  check_output w (git_diff b) base STDOUT = Completed raw →
  bytes_decode w raw encoding = raise e →
  __main w comparewith directory config
  = (pre ++ [EvRun (git_diff b) base], Raised e)
  ∧ List.filter is_echo (__main w comparewith directory config).1 = [].
Proof.
  intros Hrun Hdec.
  assert (He : decode_failure e).
  { destruct (bytes_decode_cases w raw encoding) as [[text H]|[e' [H He']]];
      rewrite H in Hdec; [discriminate|].
    injection Hdec as <-. exact He'. }
  rewrite (main_after_resolution _ _ _ _ _ _ resolved).
  rewrite (diff_stage_undecodable _ _ _ _ _ _ Hrun Hdec He), bind_Raised.
  cbn [fst snd]. split; [reflexivity|].
  rewrite List.filter_app.
  destruct (resolution_log_quiet w _ _ _ _ _ resolved) as (_ & _ & -> & _).
  reflexivity.
Qed.

(** X8. A configured fragment directory that is not empty is made
    absolute against the working directory of the process, whatever the
    base directory, and searched with no subdirectory; this is the one
    call of [find_fragments] the run makes. *)
Theorem explicit_directory_is_searched d raw text :
  config_directory cfg = Some d → d ≠ "" →
  check_output w (git_diff b) base STDOUT = Completed raw →
  bytes_decode w raw encoding = mret text →
  Str.strip text ≠ "" →
  news_file_path base cfg ∉ changed_file_set base (Str.strip text) →
  discoveries (__main w comparewith directory config).1
  = [EvFindFragments (posixpath.abspath (getcwd w) d) (config_sections cfg)
       None (config_types cfg)].
Proof.
  intros Hdir Hd Hrun Hdec Hne Hnotin.
  assert (Hsearch : fragment_search w base cfg = (posixpath.abspath (getcwd w) d, None)).
  { unfold fragment_search. rewrite Hdir.
    apply String.eqb_neq in Hd. rewrite Hd. reflexivity. }
  destruct (main_discovery_cases w comparewith directory config)
    as [(_ & H1 & H2)|[-> _]].
  - exfalso.
    rewrite (main_reaches_intersection _ _ _ _ _ _ resolved _ _ Hrun Hdec Hne Hnotin)
      in H1, H2.
    cbn [fst] in H1, H2.
    destruct (resolution_log_quiet w _ _ _ _ _ resolved) as (_ & Ht & _ & _).
    rewrite !terminal_echoes_app, Ht in H1, H2.
    rewrite (terminal_echoes_quiet _ (listing_no_terminal _)) in H1, H2.
    case_bool_decide; cbn in H1, H2; [done|].
    change (List.filter terminal_event ?l) with (terminal_echoes l) in H2.
    rewrite (terminal_echoes_quiet _ (numbered_no_terminal _)) in H2. done.
  - rewrite Hsearch. reflexivity.
Qed.

(** X9. When the diff output has a line that is the configured name of
    the news file, the run lists the changed files, echoes "skipped" and
    exits with status 0. *)
Theorem news_file_line_skips raw text :
  check_output w (git_diff b) base STDOUT = Completed raw →
  bytes_decode w raw encoding = mret text →
  config_filename cfg ∈ Str.splitlines (Str.strip text) →
  __main w comparewith directory config
  = (pre ++ [EvRun (git_diff b) base]
       ++ listing (changed_file_set base (Str.strip text))
       ++ [EvEcho MsgSkipped],
     SysExit 0).
Proof.
  intros Hrun Hdec Hline.
  rewrite (main_after_diff _ _ _ _ _ _ resolved _ _ Hrun Hdec), check_stage_eq.
  destruct (String.eqb_spec (Str.strip text) "") as [Hempty|_].
  { rewrite Hempty in Hline. cbn in Hline. by apply not_elem_of_nil in Hline. }
  cbv zeta. rewrite bool_decide_eq_true_2; [reflexivity|].
  unfold news_file_path, changed_file_set. rewrite strip_idempotent.
  apply elem_of_list_to_set, list_elem_of_fmap.
  exists (config_filename cfg). done.
Qed.

End MoreAfterResolution.

(** ** Normal forms of paths *)
Section NormalForms.

Import posixpath.

Lemma split_components s :
  Forall (λ x, Str.split "/" x = [x]) (Str.split "/" s).
Proof.
  induction s as [|c s IH]; [repeat constructor|].
  cbn [Str.split]. destruct (Ascii.eqb c "/") eqn:Hc.
  - constructor; [reflexivity|exact IH].
  - destruct (Str.split "/" s) as [|x xs]; [repeat constructor; cbn; by rewrite Hc|].
    apply Forall_cons in IH as [Hx Hxs]. constructor; [|exact Hxs].
    cbn [Str.split]. rewrite Hc, Hx. reflexivity.
Qed.

Lemma dotdot_not_name : ¬ is_name "..".
Proof. intros (_ & _ & H & _). done. Qed.

Lemma clean_nil absolute : normalised_components absolute [].
Proof. exists [], []. repeat split; constructor. Qed.

Lemma clean_snoc_name absolute acc x :
  normalised_components absolute acc → is_name x →
  normalised_components absolute (acc ++ [x]).
Proof.
  intros (dots & names & -> & Hd & Hn & Ha) Hx.
  exists dots, (names ++ [x]). rewrite app_assoc. repeat split; try done.
  apply Forall_app. split; [exact Hn|]. by constructor.
Qed.

Lemma clean_removelast absolute acc :
  normalised_components absolute acc →
  normalised_components absolute (removelast acc).
Proof.
  intros (dots & names & -> & Hd & Hn & Ha).
  destruct names as [|n names] using rev_ind.
  - rewrite app_nil_r. destruct dots as [|d dots] using rev_ind.
    + apply clean_nil.
    + rewrite removelast_last. exists dots, []. rewrite app_nil_r.
      apply Forall_app in Hd as [Hd _]. repeat split; try done.
      intros H. specialize (Ha H). by destruct dots.
  - rewrite app_assoc, removelast_last. exists dots, names.
    apply Forall_app in Hn as [Hn _]. done.
Qed.

Lemma clean_last absolute acc l :
  normalised_components absolute acc → last acc = Some l →
  (l = ".." ∧ absolute = false ∧ Forall (λ x, x = "..") acc) ∨ is_name l.
Proof.
  intros (dots & names & -> & Hd & Hn & Ha).
  destruct names as [|n names _] using rev_ind.
  - rewrite app_nil_r. intros Hl. left.
    assert (l ∈ dots) as Hin.
    { destruct dots as [|d dots _] using rev_ind; [discriminate Hl|].
      rewrite last_snoc in Hl. injection Hl as ->. set_solver. }
    split; [by apply (proj1 (Forall_forall _ _) Hd)|]. split; [|done].
    destruct absolute; [|done]. rewrite Ha in Hin by done. by apply not_elem_of_nil in Hin.
  - rewrite app_assoc, last_snoc. intros [= <-]. right.
    apply Forall_app in Hn as [_ Hn]. by inversion Hn.
Qed.

Lemma clean_snoc_dotdot acc :
  Forall (λ x, x = "..") acc →
  normalised_components false (acc ++ [".."]).
Proof.
  intros H. exists (acc ++ [".."]), []. rewrite app_nil_r.
  repeat split; try done. apply Forall_app. split; [exact H|]. by constructor.
Qed.

(** One turn of the loop keeps the components normalised. *)
Lemma normpath_step_clean i acc comp :
  Str.split "/" comp = [comp] →
  normalised_components (negb (i =? 0)%nat) acc →
  normalised_components (negb (i =? 0)%nat) (normpath_step i acc comp).
Proof.
  intros Hsplit Hacc. unfold normpath_step.
  destruct (String.eqb_spec comp "") as [->|H1]; [exact Hacc|].
  destruct (String.eqb_spec comp ".") as [->|H2]; [exact Hacc|].
  cbn [orb].
  destruct (String.eqb_spec comp "..") as [->|H3]; cbn [negb orb];
    [|apply clean_snoc_name; done].
  destruct (last acc) as [l|] eqn:Hl.
  - destruct (clean_last _ _ _ Hacc Hl) as [(-> & Hi & Hall)|Hname].
    + rewrite Hi. cbn. rewrite orb_true_r. rewrite Hi in Hacc.
      apply clean_snoc_dotdot, Hall.
    + assert (l ≠ "..") as Hne by (intros ->; by apply dotdot_not_name).
      apply String.eqb_neq in Hne. rewrite Hne, orb_false_r.
      assert (acc ≠ []) as Hnil by (intros ->; done).
      rewrite (bool_decide_eq_false_2 _ Hnil), andb_false_r.
      apply clean_removelast, Hacc.
  - apply last_None in Hl as ->. rewrite orb_false_r.
    rewrite bool_decide_eq_true_2 by done. rewrite andb_true_r.
    destruct (i =? 0)%nat; cbn.
    + apply (clean_snoc_dotdot []). constructor.
    + apply clean_nil.
Qed.

Lemma normpath_comps_clean i comps :
  Forall (λ x, Str.split "/" x = [x]) comps →
  normalised_components (negb (i =? 0)%nat) (normpath_comps i comps).
Proof.
  unfold normpath_comps. intros H.
  assert (Hgen : ∀ acc, normalised_components (negb (i =? 0)%nat) acc →
    normalised_components (negb (i =? 0)%nat) (fold_left (normpath_step i) comps acc)).
  { induction H as [|x comps Hx _ IH]; intros acc Hacc; [exact Hacc|].
    cbn [fold_left]. apply IH, normpath_step_clean; done. }
  apply Hgen, clean_nil.
Qed.

Lemma kept_clean p : normalised_components (isabs p) (kept p).
Proof.
  unfold kept.
  replace (isabs p) with (negb ((if isabs p then 1 else 0) =? 0)%nat) at 1
    by (by destruct (isabs p)).
  apply normpath_comps_clean, split_components.
Qed.

Lemma clean_components absolute comps :
  normalised_components absolute comps →
  Forall (λ x, x ≠ "" ∧ x ≠ "." ∧ Str.split "/" x = [x]) comps.
Proof.
  intros (dots & names & -> & Hd & Hn & _). apply Forall_app. split.
  - eapply Forall_impl; [exact Hd|]. intros x ->. done.
  - eapply Forall_impl; [exact Hn|]. intros x (? & ? & ? & ?). done.
Qed.

(** A [..] in normalised components has only [..] before it, and the
    path is relative. *)
Lemma clean_dotdot_prefix absolute acc rest :
  normalised_components absolute (acc ++ ".." :: rest) →
  absolute = false ∧ Forall (λ x, x = "..") acc.
Proof.
  intros (dots & names & Heq & Hd & Hn & Ha).
  apply app_eq_inv in Heq as [(k & -> & ->)|(k & -> & Hk)].
  - exfalso. apply Forall_app in Hn as [_ Hn]. inversion Hn as [|? ? H _].
    by apply dotdot_not_name.
  - apply Forall_app in Hd as [Hacc _]. split; [|exact Hacc].
    destruct absolute; [|done]. exfalso.
    destruct k as [|d k].
    + cbn in Hk. subst names. inversion Hn as [|? ? H _].
      by apply dotdot_not_name.
    + specialize (Ha eq_refl). by destruct acc.
Qed.

(** The loop of [normpath] changes nothing in normalised components. *)
Lemma normpath_loop_clean i comps acc :
  normalised_components (negb (i =? 0)%nat) (acc ++ comps) →
  fold_left (normpath_step i) comps acc = acc ++ comps.
Proof.
  revert acc. induction comps as [|x comps IH]; intros acc Hclean.
  { by rewrite app_nil_r. }
  cbn [fold_left].
  assert (Hstep : normpath_step i acc x = acc ++ [x]).
  { pose proof (clean_components _ _ Hclean) as Hall.
    apply Forall_app in Hall as [_ Hall].
    inversion Hall as [|? ? (H1 & H2 & H3) _]; subst.
    destruct (decide (x = "..")) as [->|Hx].
    - apply clean_dotdot_prefix in Hclean as [Hi Hacc].
      unfold normpath_step. cbn [String.eqb Ascii.eqb Bool.eqb orb negb].
      destruct (i =? 0)%nat; [|done]. cbn [andb].
      destruct acc as [|a acc] using rev_ind; [reflexivity|].
      rewrite last_snoc. apply Forall_app in Hacc as [_ Ha].
      inversion Ha as [|? ? -> _]. cbn. by rewrite orb_true_r.
    - apply normpath_step_name. done. }
  rewrite Hstep, IH; rewrite <- app_assoc; done.
Qed.

Lemma split_join comps :
  comps ≠ [] → Forall (λ x, Str.split "/" x = [x]) comps →
  Str.split "/" (Str.join sep comps) = comps.
Proof.
  intros Hne H. induction H as [|x comps Hx Hall IH]; [done|].
  destruct comps as [|y comps]; [exact Hx|].
  change (Str.join sep (x :: y :: comps))
    with (x +:+ String "/" (Str.join sep (y :: comps))).
  rewrite split_app_sep, Hx, IH by done. reflexivity.
Qed.

(** Normalised components come back from the string they make. *)
Lemma normpath_comps_join i comps :
  normalised_components (negb (i =? 0)%nat) comps →
  normpath_comps i (Str.split "/" (Str.join sep comps)) = comps.
Proof.
  intros Hclean. destruct comps as [|x comps]; [reflexivity|].
  rewrite split_join; [|done|].
  - apply (normpath_loop_clean i (x :: comps) []), Hclean.
  - eapply Forall_impl; [apply (clean_components _ _ Hclean)|].
    intros ? (_ & _ & ?). done.
Qed.

(** The string normalised components make does not start with a
    separator. *)
Lemma join_head absolute comps :
  normalised_components absolute comps →
  Str.startswith sep (Str.join sep comps) = false.
Proof.
  intros Hclean. apply clean_components in Hclean.
  destruct Hclean as [|x comps (Hne & _ & Hsplit) _]; [reflexivity|].
  destruct x as [|c x]; [done|].
  assert (Hc : Ascii.eqb "/" c = false).
  { cbn [Str.split] in Hsplit. rewrite Ascii.eqb_sym.
    destruct (Ascii.eqb c "/"); [discriminate Hsplit|reflexivity]. }
  destruct comps as [|y comps].
  - cbn [Str.join]. unfold sep. cbn [Str.startswith]. by rewrite Hc.
  - change (Str.join sep (String c x :: y :: comps))
      with (String c (x +:+ sep +:+ Str.join sep (y :: comps))).
    unfold sep at 1. cbn [Str.startswith]. by rewrite Hc.
Qed.

Lemma normpath_assembled p : normpath p = assembled (initial_slashes p) (kept p).
Proof.
  destruct p as [|c s]; [reflexivity|].
  unfold normpath, assembled. rewrite normpath_comps_kept. reflexivity.
Qed.

Lemma initial_slashes_cases p :
  initial_slashes p = 0 ∨ initial_slashes p = 1 ∨ initial_slashes p = 2.
Proof.
  unfold initial_slashes. destruct (Str.startswith sep p); [|by left].
  destruct (_ && _); auto.
Qed.

Lemma join_empty absolute comps :
  normalised_components absolute comps → Str.join sep comps = "" → comps = [].
Proof.
  intros Hclean Hjoin. apply clean_components in Hclean.
  destruct Hclean as [|x comps (Hne & _ & _) _]; [reflexivity|].
  destruct x as [|c x]; [done|]. destruct comps; discriminate Hjoin.
Qed.

Lemma initial_slashes_slash t :
  initial_slashes (String "/" t)
  = if Str.startswith "/" t && negb (Str.startswith "//" t) then 2 else 1.
Proof. reflexivity. Qed.

Lemma startswith_slashes t :
  Str.startswith "//" (String "/" t) = Str.startswith "/" t.
Proof. reflexivity. Qed.

(** What [normpath] returns has the initial slashes and the components
    it was made of. *)
Lemma assembled_parts i comps :
  i = 0 ∨ i = 1 ∨ i = 2 →
  normalised_components (negb (i =? 0)%nat) comps →
  initial_slashes (assembled i comps) = i ∧ kept (assembled i comps) = comps.
Proof.
  intros Hi Hclean. pose proof (join_head _ _ Hclean) as Hhead.
  unfold assembled. destruct Hi as [->|[->| ->]]; cbv zeta iota beta.
  - destruct (String.eqb_spec (Str.join sep comps) "") as [Hj|Hj].
    + apply (join_empty _ _ Hclean) in Hj as ->. done.
    + split.
      * unfold initial_slashes. by rewrite Hhead.
      * unfold kept, isabs. rewrite Hhead. by apply normpath_comps_join.
  - change (sep +:+ Str.join sep comps) with (String "/" (Str.join sep comps)).
    cbn [String.eqb]. split.
    + rewrite initial_slashes_slash. unfold sep in *. by rewrite Hhead.
    + unfold kept. change (isabs (String "/" _)) with true. cbv iota.
      change (Str.split "/" (String "/" (Str.join sep comps)))
        with ("" :: Str.split "/" (Str.join sep comps)).
      unfold normpath_comps. cbn [fold_left].
      change (normpath_step 1 [] "") with (@nil string).
      by apply (normpath_comps_join 1).
  - change (sep +:+ sep +:+ Str.join sep comps)
      with (String "/" (String "/" (Str.join sep comps))).
    cbn [String.eqb]. split.
    + rewrite initial_slashes_slash, startswith_slashes.
      unfold sep in *. by rewrite Hhead.
    + unfold kept. change (isabs (String "/" _)) with true. cbv iota.
      change (Str.split "/" (String "/" (String "/" (Str.join sep comps))))
        with ("" :: "" :: Str.split "/" (Str.join sep comps)).
      unfold normpath_comps. cbn [fold_left].
      change (normpath_step 1 [] "") with (@nil string).
      by apply (normpath_comps_join 1).
Qed.

Lemma normpath_parts p :
  initial_slashes (normpath p) = initial_slashes p ∧ kept (normpath p) = kept p.
Proof.
  rewrite normpath_assembled. apply assembled_parts.
  - apply initial_slashes_cases.
  - rewrite initial_slashes_zero, negb_involutive. apply kept_clean.
Qed.

(** Normalising a normalised path changes nothing. *)
Lemma normpath_idempotent p : normpath (normpath p) = normpath p.
Proof.
  destruct (normpath_parts p) as [Hi Hk].
  rewrite (normpath_assembled (normpath p)), Hi, Hk.
  symmetry. apply normpath_assembled.
Qed.

(** Normalising keeps a path absolute or relative. *)
Lemma normpath_isabs p : isabs (normpath p) = isabs p.
Proof.
  destruct (normpath_parts p) as [Hi _].
  apply (f_equal (λ n, negb (n =? 0)%nat)) in Hi.
  by rewrite !initial_slashes_zero, !negb_involutive in Hi.
Qed.

Lemma join2_isabs a b : isabs a = true → isabs (join2 a b) = true.
Proof.
  intros Ha. unfold join2. fold (isabs b). destruct (isabs b) eqn:Hb; [exact Hb|].
  destruct a as [|c a]; [discriminate Ha|].
  destruct (_ || _); exact Ha.
Qed.

Lemma join_isabs a l : isabs a = true → isabs (join a l) = true.
Proof.
  unfold join. revert a. induction l as [|b l IH]; intros a Ha; [exact Ha|].
  cbn [fold_left]. apply IH, join2_isabs, Ha.
Qed.

(** [abspath] returns an absolute, normalised path when the working
    directory is absolute. *)
Lemma abspath_absolute cwd p :
  isabs cwd = true →
  isabs (abspath cwd p) = true ∧ normpath (abspath cwd p) = abspath cwd p.
Proof.
  intros Hcwd. unfold abspath. destruct (isabs p) eqn:Hp.
  - rewrite normpath_isabs, normpath_idempotent. done.
  - rewrite normpath_isabs, normpath_idempotent.
    split; [|done]. by apply join_isabs.
Qed.

End NormalForms.

(** ** The paths of a run *)
Section RunPaths.

Context {sections_t types_t content_t : Type}.
Local Abbreviation world := (world sections_t types_t content_t).
Local Abbreviation event := (event sections_t types_t).

Lemma items_app (l1 l2 : list event) : items (l1 ++ l2) = items l1 ++ items l2.
Proof.
  induction l1 as [|e l1 IH]; [reflexivity|].
  destruct e as [| |m|]; cbn; rewrite ?IH; try reflexivity.
  destruct m; cbn; rewrite ?IH; reflexivity.
Qed.

Lemma items_listing (files : gset string) :
  items (listing files : list event) = elements files.
Proof.
  unfold listing. rewrite !items_app, items_numbered. cbn. apply app_nil_r.
Qed.

(** The two listings number their lines from 1 on. *)
Lemma numbered_imap (paths : list string) :
  (numbered paths : list event) = imap (λ i path, EvEcho (MsgItem (S i) path)) paths.
Proof.
  unfold numbered.
  assert (H : ∀ k, (λ '(n, path), EvEcho (MsgItem n path)) <$> enumerate k paths
              = (imap (λ i path, EvEcho (MsgItem (k + i) path)) paths : list event)).
  { induction paths as [|p paths IH]; intros k'; [reflexivity|].
    cbn [enumerate fmap list_fmap imap]. rewrite Nat.add_0_r. f_equal.
    rewrite IH. apply imap_ext. intros i x _. cbn. by rewrite Nat.add_succ_r. }
  rewrite H. reflexivity.
Qed.

Variables (w : world) (comparewith directory config : option string).

Local Abbreviation base := (run_base_directory w directory config).
Local Abbreviation cfg := (run_config w directory config).
Local Abbreviation encoding := (run_encoding w).

(** The paths of the numbered lines of the last stage are changed
    files. *)
Lemma check_stage_items b files_changed path :
  path ∈ items (check_stage w base cfg b files_changed).1 →
  path ∈ changed_file_set base files_changed.
Proof.
  rewrite check_stage_eq.
  destruct (String.eqb files_changed ""); [by intros ?%not_elem_of_nil|].
  cbv zeta. case_bool_decide; cbn [fst].
  { rewrite items_app, items_listing. cbn. rewrite app_nil_r.
    apply elem_of_elements. }
  rewrite !items_app, items_listing. cbn [items app].
  case_bool_decide; cbn [items].
  - rewrite app_nil_r. apply elem_of_elements.
  - rewrite items_numbered. intros [Hp|Hp]%elem_of_app.
    + by apply elem_of_elements.
    + apply elem_of_elements, elem_of_intersection in Hp as [_ Hp]. exact Hp.
Qed.

(** Every path of a numbered line of a run is the normalised join of
    the base directory and a line of the diff. *)
Lemma main_items path :
  path ∈ items (__main w comparewith directory config).1 →
  ∃ line, path = posixpath.normpath (posixpath.join base [line]).
Proof.
  destruct (resolve_comparewith w base encoding comparewith) as [pre r] eqn:Hres.
  destruct (resolution_log_quiet w _ _ _ _ _ Hres) as (_ & _ & _ & Hi).
  destruct r as [[b|]|code|e].
  - destruct (after_resolution_cases w comparewith directory config b pre Hres)
      as [(rc & out & _ & ->)|[(error & ->)|[(errno & strerror & ->)
         |[(raw & e & _ & _ & _ & ->)|(raw & text & _ & _ & ->)]]]];
      cbn [fst]; rewrite !items_app, Hi; cbn [items app];
      try (by intros ?%not_elem_of_nil).
    intros H%check_stage_items.
    apply elem_of_list_to_set, list_elem_of_fmap in H as (line & -> & _).
    eauto.
  - rewrite (proj2 (main_resolution_ends w comparewith directory config pre) Hres).
    cbn [fst]. rewrite items_app, Hi. by intros ?%not_elem_of_nil.
  - exfalso. destruct (resolve_comparewith_cases w base encoding comparewith)
      as [(p & o & H & _)|(_ & e & H & _)]; congruence.
  - rewrite (proj1 (main_resolution_ends w comparewith directory config pre) e Hres).
    cbn [fst]. rewrite Hi. by intros ?%not_elem_of_nil.
Qed.

(** X10. Every path a run prints in a numbered line is normalised, and
    it is absolute when the base directory is. *)
Theorem printed_paths_are_normalised path :
  path ∈ items (__main w comparewith directory config).1 →
  posixpath.normpath path = path
  ∧ (posixpath.isabs base = true → posixpath.isabs path = true).
Proof.
  intros (line & ->)%main_items. split.
  - apply normpath_idempotent.
  - intros Hbase. rewrite normpath_isabs. by apply join_isabs.
Qed.

(** X11. When the working directory of the process is absolute, every
    call of [find_fragments] is given a search base that is absolute
    and normalised. *)
Theorem search_base_is_absolute sb secs fd tys :
  posixpath.isabs (getcwd w) = true →
  EvFindFragments sb secs fd tys
    ∈ discoveries (__main w comparewith directory config).1 →
  posixpath.isabs sb = true ∧ posixpath.normpath sb = sb.
Proof.
  intros Hcwd.
  destruct (main_discovery_cases w comparewith directory config)
    as [(-> & _)|[-> _]]; [by intros ?%not_elem_of_nil|].
  intros [= -> _ _ _]%list_elem_of_singleton.
  unfold fragment_search, package_search.
  destruct (config_directory cfg) as [d|]; [destruct (String.eqb d "")|];
    cbn [fst]; by apply abspath_absolute.
Qed.

End RunPaths.

(** ** The listings of a run that reaches the diff *)
Section Listings.

Context {sections_t types_t content_t : Type}.
Local Abbreviation world := (world sections_t types_t content_t).
Local Abbreviation event := (event sections_t types_t).

Variables (w : world) (comparewith directory config : option string).
Variables (b : string) (pre : list event).

Local Abbreviation base := (run_base_directory w directory config).
Local Abbreviation cfg := (run_config w directory config).
Local Abbreviation encoding := (run_encoding w).

Hypothesis resolved :
  resolve_comparewith w base encoding comparewith = (pre, Return (Some b)).

(** X12. After a diff that is not empty, the run lists the changed
    files between "Looking at these files:" and two rules: one line for
    each distinct normalised path of a line of the diff, numbered from 1
    on. *)
Theorem changed_files_listed_once raw text :
  check_output w (git_diff b) base STDOUT = Completed raw →
  bytes_decode w raw encoding = mret text →
  Str.strip text ≠ "" →
  ∃ paths tail,
    (__main w comparewith directory config).1
    = pre ++ [EvRun (git_diff b) base; EvEcho MsgLooking; EvEcho MsgRule]
        ++ imap (λ i path, EvEcho (MsgItem (S i) path)) paths
        ++ EvEcho MsgRule :: tail
    ∧ NoDup paths
    ∧ ∀ path, path ∈ paths
        ↔ ∃ line, line ∈ Str.splitlines (Str.strip text)
            ∧ path = posixpath.normpath (posixpath.join base [line]).
Proof.
  intros Hrun Hdec Hne.
  rewrite (main_after_diff _ _ _ _ _ _ resolved _ _ Hrun Hdec), check_stage_eq.
  apply String.eqb_neq in Hne. rewrite Hne. cbv zeta.
  exists (elements (changed_file_set base (Str.strip text))).
  assert (Hshape : ∀ tail : list event,
    pre ++ [EvRun (git_diff b) base]
      ++ listing (changed_file_set base (Str.strip text)) ++ tail
    = pre ++ [EvRun (git_diff b) base; EvEcho MsgLooking; EvEcho MsgRule]
        ++ imap (λ i path, EvEcho (MsgItem (S i) path))
             (elements (changed_file_set base (Str.strip text)))
        ++ EvEcho MsgRule :: tail).
  { intros tail. unfold listing. rewrite numbered_imap.
    cbn [app]. rewrite <- !app_assoc. reflexivity. }
  assert (Hpaths : ∀ path,
    path ∈ elements (changed_file_set base (Str.strip text))
    ↔ ∃ line, line ∈ Str.splitlines (Str.strip text)
        ∧ path = posixpath.normpath (posixpath.join base [line])).
  { intros path. rewrite elem_of_elements. unfold changed_file_set.
    rewrite strip_idempotent, elem_of_list_to_set, list_elem_of_fmap.
    split; intros (line & H1 & H2); exists line; done. }
  case_bool_decide; cbn [fst].
  - eexists. split; [apply Hshape|]. split; [apply NoDup_elements|exact Hpaths].
  - eexists. split; [apply Hshape|]. split; [apply NoDup_elements|exact Hpaths].
Qed.

(** X13. When fragment discovery returns no path, a run that reaches
    it echoes "not found" and exits with status 1, whatever changed. *)
Theorem no_fragment_discovered_fails raw text :
  check_output w (git_diff b) base STDOUT = Completed raw →
  bytes_decode w raw encoding = mret text →
  Str.strip text ≠ "" →
  news_file_path base cfg ∉ changed_file_set base (Str.strip text) →
  discovered w base cfg = [] →
  __main w comparewith directory config
  = (pre ++ [EvRun (git_diff b) base]
       ++ listing (changed_file_set base (Str.strip text))
       ++ [EvFindFragments (fragment_search w base cfg).1 (config_sections cfg)
             (fragment_search w base cfg).2 (config_types cfg);
           EvEcho MsgNotFound],
     SysExit 1).
Proof.
  intros Hrun Hdec Hne Hnotin Hnone.
  rewrite (main_reaches_intersection _ _ _ _ _ _ resolved _ _ Hrun Hdec Hne Hnotin).
  rewrite Hnone. unfold fragment_path_set. cbn [fmap list_fmap list_to_set].
  rewrite bool_decide_eq_true_2 by apply intersection_empty_l_L. reflexivity.
Qed.

(** X14. When a line of the diff and a path returned by fragment
    discovery normalise to the same path, a run that reaches the
    intersection exits with status 0 and lists that path after
    "Found:". *)
Theorem fragment_on_branch_is_reported raw text line fragment :
  check_output w (git_diff b) base STDOUT = Completed raw →
  bytes_decode w raw encoding = mret text →
  news_file_path base cfg ∉ changed_file_set base (Str.strip text) →
  line ∈ Str.splitlines (Str.strip text) →
  fragment ∈ discovered w base cfg →
  posixpath.normpath fragment = posixpath.normpath (posixpath.join base [line]) →
  (__main w comparewith directory config).2 = SysExit 0
  ∧ posixpath.normpath fragment
    ∈ found_report (__main w comparewith directory config).1.
Proof.
  intros Hrun Hdec Hnotin Hline Hfragment Hsame.
  assert (Hne : Str.strip text ≠ "").
  { intros Hempty. rewrite Hempty in Hline. by apply not_elem_of_nil in Hline. }
  set (found := fragment_path_set (discovered w base cfg)
                ∩ changed_file_set base (Str.strip text)).
  assert (Hin : posixpath.normpath fragment ∈ found).
  { apply elem_of_intersection. split.
    - apply elem_of_list_to_set, list_elem_of_fmap. exists fragment. done.
    - unfold changed_file_set. rewrite strip_idempotent.
      apply elem_of_list_to_set, list_elem_of_fmap. exists line. done. }
  assert (Hfound : found ≠ ∅).
  { intros Hempty. rewrite Hempty in Hin. by apply not_elem_of_empty in Hin. }
  rewrite (main_reaches_intersection _ _ _ _ _ _ resolved _ _ Hrun Hdec Hne Hnotin).
  fold found. rewrite (bool_decide_eq_false_2 _ Hfound). cbn [fst snd].
  split; [reflexivity|].
  destruct (resolution_log_quiet w _ _ _ _ _ resolved) as (_ & Ht & _ & _).
  rewrite !app_assoc.
  rewrite found_report_quiet.
  - cbn [found_report]. rewrite items_numbered. by apply elem_of_elements.
  - apply Forall_app. split; [|by repeat constructor].
    apply Forall_app. split; [|apply listing_no_terminal].
    apply Forall_app. split; [|by repeat constructor].
    apply (pre_no_terminal w comparewith directory config b pre resolved).
Qed.

End Listings.

(** ** These properties on concrete runs *)
Section MoreWitnesses.

Import Examples.

Local Abbreviation event := (event unit unit).

Lemma X1_witness :
  ([EvRun git_branch_r "/repo"] : list event) = [EvRun git_branch_r "/repo"]
  ∧ Forall (λ b, Str.strip b = b)
      ["origin/HEAD -> origin/main"; "origin/main"; "origin/master"].
Proof.
  apply (remote_branches_are_stripped w_found "/repo" (PyStr "utf8")).
  reflexivity.
Defined.

Lemma X2_witness :
  __main w_no_default None None None
  = ([EvRun git_branch_r "/repo"; EvEcho MsgNoDefaultBranch], SysExit 1).
Proof.
  apply (no_default_branch_exits_1 w_no_default None None
           (utf8_bytes ("  origin/HEAD -> origin/main" +:+ nl +:+ "  origin/develop" +:+ nl))
           ("  origin/HEAD -> origin/main" +:+ nl +:+ "  origin/develop" +:+ nl)).
  - reflexivity.
  - reflexivity.
  - apply (bool_decide_eq_false_1 _). vm_compute. reflexivity.
  - apply (bool_decide_eq_false_1 _). vm_compute. reflexivity.
Defined.

Lemma X3_witness :
  __main w_found None None None
  = ([EvRun git_branch_r "/repo"]
       ++ (__main w_found (Some "origin/main") None None).1,
     (__main w_found (Some "origin/main") None None).2)
  ∧ __main w_master None None None
    = ([EvRun git_branch_r "/repo";
        EvWarn DeprecationWarning origin_master_deprecated]
         ++ (__main w_master (Some "origin/master") None None).1,
       (__main w_master (Some "origin/master") None None).2).
Proof.
  split.
  - apply (proj1 (default_branch_run_is_explicit_run w_found None None
             (utf8_bytes ("  origin/HEAD -> origin/main" +:+ nl +:+ "  origin/main" +:+ nl
                          +:+ "  origin/master" +:+ nl))
             ("  origin/HEAD -> origin/main" +:+ nl +:+ "  origin/main" +:+ nl
              +:+ "  origin/master" +:+ nl) eq_refl eq_refl)).
    exists "  origin/main". split; [|reflexivity].
    apply (bool_decide_eq_true_1 _). vm_compute. reflexivity.
  - apply (proj2 (default_branch_run_is_explicit_run w_master None None
             (utf8_bytes ("  origin/master" +:+ nl +:+ "  origin/topic" +:+ nl))
             ("  origin/master" +:+ nl +:+ "  origin/topic" +:+ nl) eq_refl eq_refl)).
    + apply Forall_forall. vm_compute. repeat constructor; discriminate.
    + exists "  origin/master". split; [|reflexivity].
      apply (bool_decide_eq_true_1 _). vm_compute. reflexivity.
Defined.

Lemma X4_witness :
  discovery_invoked (__main w_found None None None).1 = true.
Proof.
  apply (proj2 (discovery_only_before_verdict w_found None None None)).
  right. vm_compute. reflexivity.
Defined.

Lemma X6_witness :
  last (commands ([EvRun (git_diff "nowhere") "/repo"; EvEcho MsgGitFailed;
                   EvEcho (MsgOutput (utf8_bytes ("fatal: bad revision 'nowhere...'" +:+ nl)))]
                  : list event))
  = Some (git_diff "nowhere", "/repo")
  ∧ check_output w_bad_revision (git_diff "nowhere") "/repo" STDOUT
    = Failed 128 (utf8_bytes ("fatal: bad revision 'nowhere...'" +:+ nl)).
Proof.
  apply (process_error_is_of_last_command w_bad_revision (Some "nowhere") None None).
  reflexivity.
Defined.

Lemma X7_witness :
  __main w_unknown_encoding (Some "origin/main") None None
  = ([] ++ [EvRun (git_diff "origin/main") "/repo"],
     Raised (LookupError "unknown encoding: klingon"))
  ∧ List.filter is_echo (__main w_unknown_encoding (Some "origin/main") None None).1
    = [].
Proof.
  apply (undecodable_diff_raises_silently w_unknown_encoding (Some "origin/main")
           None None "origin/main" [] eq_refl
           (utf8_bytes ("src/feature.py" +:+ nl +:+ "newsfragments/123.feature" +:+ nl))).
  - reflexivity.
  - reflexivity.
Defined.

Lemma X8_witness :
  discoveries (__main w_elsewhere None None None).1
  = [EvFindFragments "/home/dev/news" tt None tt].
Proof.
  apply (explicit_directory_is_searched w_elsewhere None None None "origin/main"
           [EvRun git_branch_r "/repo"] eq_refl "news"
           (utf8_bytes ("src/feature.py" +:+ nl)) ("src/feature.py" +:+ nl)).
  - reflexivity.
  - discriminate.
  - reflexivity.
  - reflexivity.
  - vm_compute. discriminate.
  - apply (bool_decide_eq_false_1 _). vm_compute. reflexivity.
Defined.

Lemma X9_witness :
  __main w_news None None None
  = ([EvRun git_branch_r "/repo"] ++ [EvRun (git_diff "origin/main") "/repo"]
       ++ listing (changed_file_set "/repo" ("NEWS.rst" +:+ nl +:+ "src/feature.py"))
       ++ [EvEcho MsgSkipped],
     SysExit 0).
Proof.
  apply (news_file_line_skips w_news None None None "origin/main"
           [EvRun git_branch_r "/repo"] eq_refl
           (utf8_bytes ("NEWS.rst" +:+ nl +:+ "src/feature.py" +:+ nl))
           ("NEWS.rst" +:+ nl +:+ "src/feature.py" +:+ nl)).
  - reflexivity.
  - reflexivity.
  - apply (bool_decide_eq_true_1 _). vm_compute. reflexivity.
Defined.

Lemma X10_witness :
  posixpath.normpath "/repo/newsfragments/123.feature"
  = "/repo/newsfragments/123.feature"
  ∧ (posixpath.isabs "/repo" = true
     → posixpath.isabs "/repo/newsfragments/123.feature" = true).
Proof.
  apply (printed_paths_are_normalised w_found None None None).
  apply (bool_decide_eq_true_1 _). vm_compute. reflexivity.
Defined.

Lemma X11_witness :
  posixpath.isabs "/home/dev/news" = true
  ∧ posixpath.normpath "/home/dev/news" = "/home/dev/news".
Proof.
  apply (search_base_is_absolute w_elsewhere None None None "/home/dev/news" tt None tt).
  - reflexivity.
  - assert (discoveries (__main w_elsewhere None None None).1
            = [EvFindFragments "/home/dev/news" tt None tt]) as ->
      by (vm_compute; reflexivity).
    apply list_elem_of_here.
Defined.

Lemma X12_witness :
  ∃ paths (tail : list event),
    (__main w_repeated None None None).1
    = [EvRun git_branch_r "/repo"]
        ++ [EvRun (git_diff "origin/main") "/repo"; EvEcho MsgLooking; EvEcho MsgRule]
        ++ imap (λ i path, EvEcho (MsgItem (S i) path)) paths
        ++ EvEcho MsgRule :: tail
    ∧ NoDup paths
    ∧ ∀ path, path ∈ paths
        ↔ ∃ line, line ∈ ["src/a.py"; "./src/a.py"; "src/b.py"]
            ∧ path = posixpath.normpath (posixpath.join "/repo" [line]).
Proof.
  apply (changed_files_listed_once w_repeated None None None "origin/main"
           [EvRun git_branch_r "/repo"] eq_refl
           (utf8_bytes ("src/a.py" +:+ nl +:+ "./src/a.py" +:+ nl +:+ "src/b.py" +:+ nl))
           ("src/a.py" +:+ nl +:+ "./src/a.py" +:+ nl +:+ "src/b.py" +:+ nl)).
  - reflexivity.
  - reflexivity.
  - vm_compute. discriminate.
Defined.

Lemma X13_witness :
  __main w_no_fragment None None None
  = ([EvRun git_branch_r "/repo"] ++ [EvRun (git_diff "origin/main") "/repo"]
       ++ listing (changed_file_set "/repo" "src/feature.py")
       ++ [EvFindFragments "/repo" tt (Some "newsfragments") tt; EvEcho MsgNotFound],
     SysExit 1).
Proof.
  apply (no_fragment_discovered_fails w_no_fragment None None None "origin/main"
           [EvRun git_branch_r "/repo"] eq_refl
           (utf8_bytes ("src/feature.py" +:+ nl)) ("src/feature.py" +:+ nl)).
  - reflexivity.
  - reflexivity.
  - vm_compute. discriminate.
  - apply (bool_decide_eq_false_1 _). vm_compute. reflexivity.
  - reflexivity.
Defined.

Lemma X14_witness :
  (__main w_found None None None).2 = SysExit 0
  ∧ posixpath.normpath "/repo/newsfragments/123.feature"
    ∈ found_report (__main w_found None None None).1.
Proof.
  apply (fragment_on_branch_is_reported w_found None None None "origin/main"
           [EvRun git_branch_r "/repo"] eq_refl
           (utf8_bytes ("src/feature.py" +:+ nl +:+ "newsfragments/123.feature" +:+ nl))
           ("src/feature.py" +:+ nl +:+ "newsfragments/123.feature" +:+ nl)
           "newsfragments/123.feature" "/repo/newsfragments/123.feature").
  - reflexivity.
  - reflexivity.
  - apply (bool_decide_eq_false_1 _). vm_compute. reflexivity.
  - apply (bool_decide_eq_true_1 _). vm_compute. reflexivity.
  - apply (bool_decide_eq_true_1 _). vm_compute. reflexivity.
  - reflexivity.
Defined.

End MoreWitnesses.
